(** * SmartPromptDecomposition: a shallow embedding of [app.py]

    The development embeds the decomposition-and-chained-execution core of
    [app.py] ([get_ai_response], [ai_prompt_decomposition],
    [process_prompt_chain]) and proves the properties its specification
    states about them.

    Modelling choices.
    - A Python [str] is a [string] (its UTF-8 bytes); ['['], [']'] and all
      the template text are ASCII, so [find], [rfind] and slicing agree with
      Python's up to the choice of index unit.
    - Indices are [Z], as Python's [int]: [find] and [rfind] answer [-1]
      when the character is absent.
    - [litellm.completion] is an external, fallible, possibly
      non-deterministic call: it is an oracle over an abstract [World] that
      is threaded through the program; every call is recorded in a trace
      together with its outcome.
    - [json.loads] is a library function: the program is parametric in it,
      and [Json.loads] below is a reference parser used to run the program
      on concrete replies.
    - Python exceptions are explicit: a computation returns [inl v] or
      raises [inr e]; [try_except] is the [try: ... except Exception] block.
    - The content of a completion is taken to be a [str], as the annotation
      of [get_ai_response] says.
    - The Streamlit widgets that only display ([st.markdown], [st.info],
      [st.chat_message], ...) are not modelled; [st.error] is, as an event
      of the trace. The chat handler repeats the loop of
      [process_prompt_chain] inline, with display between the steps: the
      function and the handler are both embedded. *)

From Stdlib Require Import String Ascii List ZArith Lia Bool DecimalString.
Import ListNotations.
Open Scope string_scope.
Open Scope Z_scope.

(** ** Python strings *)

Module PyStr.

Definition nl : string := String "010"%char EmptyString.
Definition dq : string := String "034"%char EmptyString.

(** [s.find(c)] for a one-character [c]: lowest index, or [-1]. *)
Fixpoint find (c : ascii) (s : string) : Z :=
  match s with
  | EmptyString => -1
  | String a s' =>
      if Ascii.eqb a c then 0
      else let r := find c s' in if r =? -1 then -1 else r + 1
  end.

(** [s.rfind(c)] for a one-character [c]: highest index, or [-1]. *)
Fixpoint rfind (c : ascii) (s : string) : Z :=
  match s with
  | EmptyString => -1
  | String a s' =>
      let r := rfind c s' in
      if r =? -1 then (if Ascii.eqb a c then 0 else -1) else r + 1
  end.

(** [s[start:stop]]: a negative bound counts from the end, and both
    bounds are clamped to [0 .. len(s)]. *)
Definition clamp (n i : Z) : Z :=
  if i <? 0 then Z.max 0 (i + n) else Z.min i n.

Definition slice (s : string) (start stop : Z) : string :=
  let n := Z.of_nat (String.length s) in
  let lo := clamp n start in
  let hi := clamp n stop in
  substring (Z.to_nat lo) (Z.to_nat (hi - lo)) s.

(** Truth value of a string in [if context:]. *)
Definition truthy (s : string) : bool :=
  match s with
  | EmptyString => false
  | String _ _ => true
  end.

Fixpoint spaces (n : nat) : string :=
  match n with
  | O => EmptyString
  | S n' => String " "%char (spaces n')
  end.

(** Writes a text that contains double quotes with apostrophes in their
    place: [quoted "['a']"] is the five characters [["a"]]. *)
Fixpoint quoted (s : string) : string :=
  match s with
  | EmptyString => EmptyString
  | String a s' =>
      String (if Ascii.eqb a "'"%char then "034"%char else a) (quoted s')
  end.

(** [c in s] for a one-character [c]. *)
Fixpoint has (c : ascii) (s : string) : bool :=
  match s with
  | EmptyString => false
  | String a s' => Ascii.eqb a c || has c s'
  end.

(** [s] occurs in [t]. *)
Definition occurs_in (s t : string) : Prop :=
  exists pre post, t = pre ++ s ++ post.

End PyStr.

(** ** Python values, as [json.loads] builds them *)

#[local] Set Warnings "-register-all".

Inductive PyVal : Type :=
| PyNone
| PyBool (b : bool)
| PyInt (n : Z)
| PyFloat (literal : string)
| PyStr (s : string)
| PyList (l : list PyVal)
| PyDict (items : list (string * PyVal)).

(** [isinstance(v, list)] *)
Definition isinstance_list (v : PyVal) : bool :=
  match v with
  | PyList _ => true
  | _ => false
  end.

(** The elements of a Python list. *)
Definition elements (v : PyVal) : list PyVal :=
  match v with
  | PyList l => l
  | _ => []
  end.

(** An exception, known by [str(e)]. *)
Inductive Exn : Type := Exception (msg : string).

Definition str (e : Exn) : string :=
  match e with Exception msg => msg end.

(** ** Effects: the backend, the trace and the session *)

(** The arguments of one [completion(model=..., messages=[{"role": "user",
    "content": prompt}], max_tokens=...)] call. *)
Record Call : Type := mkCall {
  call_model : string;
  call_prompt : string;
  call_max_tokens : Z
}.

(** What the body [completion(...).choices[0].message.content] does: it
    yields the content or raises. *)
Definition Outcome : Type := (string + Exn)%type.

Inductive Event : Type :=
| EvCompletion (c : Call) (r : Outcome)
| EvStError (msg : string).

(** [st.session_state] *)
Record Session : Type := mkSession {
  messages : list (string * string);
  enable_prompt_splitting : bool;
  model : string
}.

Section Program.

Variable World : Type.

(** [litellm.completion], as an oracle over the world. *)
Variable backend : World -> Call -> Outcome * World.

(** [json.loads]. *)
Variable json_loads : string -> PyVal + Exn.

Record St : Type := mkSt {
  world : World;
  trace : list Event;
  session : Session
}.

Definition M (A : Type) : Type := St -> (A + Exn) * St.

Definition ret {A} (a : A) : M A := fun s => (inl a, s).

Definition raise {A} (e : Exn) : M A := fun s => (inr e, s).

Definition bind {A B} (m : M A) (k : A -> M B) : M B :=
  fun s =>
    match m s with
    | (inl a, s') => k a s'
    | (inr e, s') => (inr e, s')
    end.

(** [try: body except Exception as e: handler e] *)
Definition try_except {A} (body : M A) (handler : Exn -> M A) : M A :=
  fun s =>
    match body s with
    | (inl a, s') => (inl a, s')
    | (inr e, s') => handler e s'
    end.

Definition lift {A} (r : A + Exn) : M A := fun s => (r, s).

Definition emit (ev : Event) : M unit :=
  fun s => (inl tt, mkSt (world s) (trace s ++ [ev]) (session s)).

Definition get_session : M Session := fun s => (inl (session s), s).

Definition put_session (ss : Session) : M unit :=
  fun s => (inl tt, mkSt (world s) (trace s) ss).

Notation "x <- m ;; k" := (bind m (fun x => k))
  (at level 100, m at next level, right associativity).

(** [completion(model=model, messages=[...prompt...],
    max_tokens=max_tokens).choices[0].message.content] *)
Definition completion (model prompt : string) (max_tokens : Z) : M string :=
  fun s =>
    let c := mkCall model prompt max_tokens in
    let (r, w') := backend (world s) c in
    (r, mkSt w' (trace s ++ [EvCompletion c r]) (session s)).

(** [st.error(msg)] *)
Definition st_error (msg : string) : M unit := emit (EvStError msg).

(** Default of the parameter [model] of [get_ai_response]. *)
Definition get_ai_response_model : string := "gpt-4o-mini".

Definition get_ai_response (prompt model : string) : M string :=
  try_except
    (completion model prompt 500)
    (fun e => ret ("Error: " ++ str e)).

Definition decomposition_prompt (complex_prompt : string) : string :=
  let nl := PyStr.nl in
  let dq := PyStr.dq in
  let ind := PyStr.spaces 4 in
  nl ++ ind ++ "Break down this complex query into smaller, logically connected sub-queries. Consider:"
  ++ nl ++ ind ++ "1. Dependencies between questions"
  ++ nl ++ ind ++ "2. Context needed for each sub-query"
  ++ nl ++ ind ++ "3. Logical flow of information"
  ++ nl ++ ind
  ++ nl ++ ind ++ "Complex query: " ++ dq ++ complex_prompt ++ dq
  ++ nl ++ ind
  ++ nl ++ ind ++ "Return ONLY a JSON array of strings, where each string is a sub-query. Format:"
  ++ nl ++ ind ++ "[" ++ dq ++ "sub-query 1" ++ dq ++ ", " ++ dq ++ "sub-query 2" ++ dq ++ ", ...]"
  ++ nl ++ ind
  ++ nl ++ ind ++ "The sub-queries should build upon each other naturally and maintain context."
  ++ nl ++ ind.

Definition ai_prompt_decomposition (complex_prompt : string)
  : M (list PyVal) :=
  try_except
    (response_text <- completion "gpt-4o-mini"
                        (decomposition_prompt complex_prompt) 500 ;;
     let start_idx := PyStr.find "["%char response_text in
     let end_idx := PyStr.rfind "]"%char response_text + 1 in
     if negb (start_idx =? -1) && negb (end_idx =? -1) then
       let json_str := PyStr.slice response_text start_idx end_idx in
       sub_prompts <- lift (json_loads json_str) ;;
       ret (if isinstance_list sub_prompts then elements sub_prompts
            else [])
     else ret [PyStr complex_prompt])
    (fun e =>
       _ <- st_error ("Error in prompt decomposition: " ++ str e) ;;
       ret [PyStr complex_prompt]).

(** The f-string of [process_prompt_chain] that presents the context. *)
Definition context_template (context prompt : string) : string :=
  let nl := PyStr.nl in
  let ind := PyStr.spaces 12 in
  nl ++ ind ++ "Given this context from previous responses: "
  ++ nl ++ ind ++ context
  ++ nl ++ ind
  ++ nl ++ ind ++ "Please address this follow-up question while considering the above context:"
  ++ nl ++ ind ++ prompt
  ++ nl ++ ind.

Definition context_prompt (context prompt : string) : string :=
  if PyStr.truthy context then context_template context prompt
  else prompt.

(** [f"\nQ: {prompt}\nA: {response}\n"] *)
Definition qa_entry (prompt response : string) : string :=
  PyStr.nl ++ "Q: " ++ prompt ++ PyStr.nl ++ "A: " ++ response ++ PyStr.nl.

(** The [for] loop of [process_prompt_chain], on the prompts still to
    process, from the current values of the local variables [responses]
    and [context]; it yields their values when the loop ends. *)
Fixpoint process_prompt_chain_loop (prompts : list string)
    (responses : list (string * string)) (context : string)
  : M (list (string * string) * string) :=
  match prompts with
  | [] => ret (responses, context)
  | prompt :: prompts' =>
      response <- get_ai_response (context_prompt context prompt)
                    get_ai_response_model ;;
      process_prompt_chain_loop prompts'
        (responses ++ [(prompt, response)])
        (context ++ qa_entry prompt response)
  end.

Definition process_prompt_chain (prompts : list string)
  : M (list (string * string)) :=
  final <- process_prompt_chain_loop prompts [] "" ;;
  ret (fst final).

(** The direct answer of the chat handler (normal chat mode and the
    single prompt case): the only calls that pass
    [model=st.session_state.model]. The display widgets are not
    modelled. *)
Definition direct_answer (prompt : string) : M string :=
  ss <- get_session ;;
  response <- get_ai_response prompt (model ss) ;;
  _ <- put_session (mkSession (messages ss ++ [("assistant", response)])
                      (enable_prompt_splitting ss) (model ss)) ;;
  ret response.

End Program.

(** ** A reference [json.loads]

    A parser for the JSON texts that Python's [json.loads] accepts:
    [null], [true], [false], [NaN], [Infinity], [-Infinity], numbers,
    strings with their escapes (a [\u] escape is written out in UTF-8),
    arrays and objects, between optional white space. A float keeps its
    literal. The text of the [JSONDecodeError] and CPython's limits on
    nesting depth and on the length of an integer are not reproduced. *)

Module Json.

Definition is_ws (c : ascii) : bool :=
  ((c =? " ") || (c =? "009") || (c =? "010") || (c =? "013"))%char.

Fixpoint skip_ws (s : string) : string :=
  match s with
  | String c s' => if is_ws c then skip_ws s' else s
  | EmptyString => s
  end.

(** [s] without its prefix [p], when it starts with [p]. *)
Fixpoint strip_prefix (p s : string) : option string :=
  match p, s with
  | EmptyString, _ => Some s
  | String a p', String b s' =>
      if Ascii.eqb a b then strip_prefix p' s' else None
  | String _ _, EmptyString => None
  end.

Definition is_digit (c : ascii) : bool :=
  let n := N_of_ascii c in ((48 <=? n) && (n <=? 57))%N.

(** The longest prefix of digits, and the rest. *)
Fixpoint span_digits (s : string) : string * string :=
  match s with
  | String c s' =>
      if is_digit c
      then let (d, r) := span_digits s' in (String c d, r)
      else (EmptyString, s)
  | EmptyString => (EmptyString, s)
  end.

Fixpoint Z_of_digits (acc : Z) (s : string) : Z :=
  match s with
  | String c s' => Z_of_digits (10 * acc + (Z.of_N (N_of_ascii c) - 48)) s'
  | EmptyString => acc
  end.

(** The integer part of a number (an optional minus sign, then a single
    zero or digits that start with a non-zero one): the sign, the digits
    and the rest. *)
Definition scan_integer (s : string) : option (bool * string * string) :=
  let (neg, s1) :=
    match s with
    | String c s' => if (c =? "-")%char then (true, s') else (false, s)
    | EmptyString => (false, s)
    end in
  match s1 with
  | String c s' =>
      if (c =? "0")%char then Some (neg, "0", s')
      else if is_digit c then
        let (d, r) := span_digits s1 in Some (neg, d, r)
      else None
  | EmptyString => None
  end.

(** The optional fraction: a dot and at least one digit. *)
Definition scan_frac (s : string) : string * string :=
  match s with
  | String c s' =>
      if (c =? ".")%char then
        match span_digits s' with
        | (EmptyString, _) => (EmptyString, s)
        | (d, r) => (String c d, r)
        end
      else (EmptyString, s)
  | EmptyString => (EmptyString, s)
  end.

(** The optional exponent: [e] or [E], an optional sign and at least
    one digit. *)
Definition scan_exp (s : string) : string * string :=
  match s with
  | String e s' =>
      if ((e =? "e") || (e =? "E"))%char then
        let (sign, s2) :=
          match s' with
          | String c s'' =>
              if ((c =? "-") || (c =? "+"))%char
              then (String c EmptyString, s'') else (EmptyString, s')
          | EmptyString => (EmptyString, s')
          end in
        match span_digits s2 with
        | (EmptyString, _) => (EmptyString, s)
        | (d, r) => (String e (sign ++ d), r)
        end
      else (EmptyString, s)
  | EmptyString => (EmptyString, s)
  end.

Definition scan_number (s : string) : option (PyVal * string) :=
  match scan_integer s with
  | None => None
  | Some (neg, d, r) =>
      let (frac, r1) := scan_frac r in
      let (exp, r2) := scan_exp r1 in
      match frac, exp with
      | EmptyString, EmptyString =>
          Some (PyInt (if neg then - Z_of_digits 0 d else Z_of_digits 0 d), r2)
      | _, _ =>
          Some (PyFloat ((if neg then "-" else "") ++ d ++ frac ++ exp), r2)
      end
  end.

Definition hex_digit (c : ascii) : option Z :=
  let n := Z.of_N (N_of_ascii c) in
  if (48 <=? n) && (n <=? 57) then Some (n - 48)
  else if (97 <=? n) && (n <=? 102) then Some (n - 87)
  else if (65 <=? n) && (n <=? 70) then Some (n - 55)
  else None.

Definition hex4 (a b c d : ascii) : option Z :=
  match hex_digit a, hex_digit b, hex_digit c, hex_digit d with
  | Some x, Some y, Some z, Some w => Some (((x * 16 + y) * 16 + z) * 16 + w)
  | _, _, _, _ => None
  end.

Definition byte (n : Z) : string :=
  String (ascii_of_N (Z.to_N n)) EmptyString.

(** The UTF-8 bytes of a code point. *)
Definition utf8 (cp : Z) : string :=
  if cp <? 128 then byte cp
  else if cp <? 2048 then
    byte (192 + cp / 64) ++ byte (128 + cp mod 64)
  else if cp <? 65536 then
    byte (224 + cp / 4096) ++ byte (128 + (cp / 64) mod 64)
    ++ byte (128 + cp mod 64)
  else
    byte (240 + cp / 262144) ++ byte (128 + (cp / 4096) mod 64)
    ++ byte (128 + (cp / 64) mod 64) ++ byte (128 + cp mod 64).

Definition simple_escape (c : ascii) : option ascii :=
  (if c =? "034" then Some "034"
   else if c =? "\" then Some "\"
   else if c =? "/" then Some "/"
   else if c =? "b" then Some "008"
   else if c =? "f" then Some "012"
   else if c =? "n" then Some "010"
   else if c =? "r" then Some "013"
   else if c =? "t" then Some "009"
   else None)%char.

(** The low half of a surrogate pair at the head of [s], and the rest. *)
Definition low_surrogate (s : string) : option (Z * string) :=
  match s with
  | String b (String u (String h1 (String h2 (String h3 (String h4 r))))) =>
      if ((b =? "\") && (u =? "u"))%char then
        match hex4 h1 h2 h3 h4 with
        | Some lo =>
            if (56320 <=? lo) && (lo <=? 57343) then Some (lo, r) else None
        | None => None
        end
      else None
  | _ => None
  end.

(** The body of a string after its opening quote (strict mode), and the
    text after its closing quote. *)
Fixpoint scanstring (fuel : nat) (s : string) : option (string * string) :=
  match fuel with
  | O => None
  | S fuel' =>
      match s with
      | EmptyString => None
      | String c s' =>
          if (c =? "034")%char then Some (EmptyString, s')
          else if (c =? "\")%char then
            match s' with
            | EmptyString => None
            | String e s'' =>
                if (e =? "u")%char then
                  match s'' with
                  | String h1 (String h2 (String h3 (String h4 r))) =>
                      match hex4 h1 h2 h3 h4 with
                      | None => None
                      | Some hi =>
                          let (cp, r') :=
                            if (55296 <=? hi) && (hi <=? 56319) then
                              match low_surrogate r with
                              | Some (lo, r2) =>
                                  (65536 + ((hi - 55296) * 1024 + (lo - 56320)), r2)
                              | None => (hi, r)
                              end
                            else (hi, r) in
                          match scanstring fuel' r' with
                          | Some (body, rest) => Some (utf8 cp ++ body, rest)
                          | None => None
                          end
                      end
                  | _ => None
                  end
                else
                  match simple_escape e with
                  | None => None
                  | Some a =>
                      match scanstring fuel' s'' with
                      | Some (body, rest) => Some (String a body, rest)
                      | None => None
                      end
                  end
            end
          else if (N_of_ascii c <? 32)%N then None
          else
            match scanstring fuel' s' with
            | Some (body, rest) => Some (String c body, rest)
            | None => None
            end
      end
  end.

(** [d[k] = v] on a dict kept in insertion order. *)
Fixpoint dict_set (k : string) (v : PyVal) (items : list (string * PyVal))
  : list (string * PyVal) :=
  match items with
  | [] => [(k, v)]
  | (k', v') :: items' =>
      if String.eqb k k' then (k', v) :: items'
      else (k', v') :: dict_set k v items'
  end.

Fixpoint scan_once (fuel : nat) (s : string) : option (PyVal * string) :=
  match fuel with
  | O => None
  | S fuel' =>
      match s with
      | EmptyString => None
      | String c s' =>
          if (c =? "034")%char then
            match scanstring (S (String.length s')) s' with
            | Some (body, rest) => Some (PyStr body, rest)
            | None => None
            end
          else if (c =? "{")%char then
            match skip_ws s' with
            | String c1 r1 =>
                if (c1 =? "}")%char then Some (PyDict [], r1)
                else scan_items fuel' (String c1 r1) []
            | EmptyString => None
            end
          else if (c =? "[")%char then
            match skip_ws s' with
            | String c1 r1 =>
                if (c1 =? "]")%char then Some (PyList [], r1)
                else scan_values fuel' (String c1 r1) []
            | EmptyString => None
            end
          else
            match strip_prefix "null" s, strip_prefix "true" s,
                  strip_prefix "false" s with
            | Some r, _, _ => Some (PyNone, r)
            | _, Some r, _ => Some (PyBool true, r)
            | _, _, Some r => Some (PyBool false, r)
            | None, None, None =>
                match scan_number s with
                | Some res => Some res
                | None =>
                    match strip_prefix "NaN" s, strip_prefix "Infinity" s,
                          strip_prefix "-Infinity" s with
                    | Some r, _, _ => Some (PyFloat "nan", r)
                    | _, Some r, _ => Some (PyFloat "inf", r)
                    | _, _, Some r => Some (PyFloat "-inf", r)
                    | None, None, None => None
                    end
                end
            end
      end
  end

(** The values of an array from its next value on; [acc] holds the
    values read so far. *)
with scan_values (fuel : nat) (s : string) (acc : list PyVal)
  : option (PyVal * string) :=
  match fuel with
  | O => None
  | S fuel' =>
      match scan_once fuel' s with
      | None => None
      | Some (v, r) =>
          match skip_ws r with
          | String c r1 =>
              if (c =? "]")%char then Some (PyList (acc ++ [v]), r1)
              else if (c =? ",")%char
              then scan_values fuel' (skip_ws r1) (acc ++ [v])
              else None
          | EmptyString => None
          end
      end
  end

(** The items of an object from its next key on. *)
with scan_items (fuel : nat) (s : string) (acc : list (string * PyVal))
  : option (PyVal * string) :=
  match fuel with
  | O => None
  | S fuel' =>
      match s with
      | EmptyString => None
      | String q s' =>
          if (q =? "034")%char then
            match scanstring (S (String.length s')) s' with
            | None => None
            | Some (key, r) =>
                match skip_ws r with
                | String c r1 =>
                    if (c =? ":")%char then
                      match scan_once fuel' (skip_ws r1) with
                      | None => None
                      | Some (v, r2) =>
                          match skip_ws r2 with
                          | String c2 r3 =>
                              if (c2 =? "}")%char
                              then Some (PyDict (dict_set key v acc), r3)
                              else if (c2 =? ",")%char
                              then scan_items fuel' (skip_ws r3)
                                     (dict_set key v acc)
                              else None
                          | EmptyString => None
                          end
                      end
                    else None
                | EmptyString => None
                end
            end
          else None
      end
  end.

Definition loads (s : string) : PyVal + Exn :=
  let s0 := skip_ws s in
  match scan_once (2 * String.length s0 + 2) s0 with
  | Some (v, rest) =>
      match skip_ws rest with
      | EmptyString => inl v
      | String _ _ => inr (Exception "JSONDecodeError: Extra data")
      end
  | None => inr (Exception "JSONDecodeError")
  end.

End Json.


Arguments qa_entry : simpl never.
Arguments context_prompt : simpl never.
Arguments context_template : simpl never.
Arguments decomposition_prompt : simpl never.

(** ** Reading a run *)

(** The completion calls of a trace, with their outcomes, in call order. *)
Fixpoint completions (t : list Event) : list (Call * Outcome) :=
  match t with
  | [] => []
  | EvCompletion c r :: t' => (c, r) :: completions t'
  | EvStError _ :: t' => completions t'
  end.

(** The messages given to [st.error], in order. *)
Fixpoint diagnostics (t : list Event) : list string :=
  match t with
  | [] => []
  | EvStError msg :: t' => msg :: diagnostics t'
  | EvCompletion _ _ :: t' => diagnostics t'
  end.

(** The string that [get_ai_response] returns for an outcome of the
    backend. *)
Definition response_of (r : Outcome) : string :=
  match r with
  | inl content => content
  | inr e => "Error: " ++ str e
  end.

(** The text that the loop of [process_prompt_chain] has added to
    [context] once it has appended the records [log] to [responses]. *)
Fixpoint render (log : list (string * string)) : string :=
  match log with
  | [] => ""
  | (prompt, response) :: log' => qa_entry prompt response ++ render log'
  end.

(** The rendering in the specification's words: each record is
    [Q: subQuery], a newline, [A: response], a newline. *)
Fixpoint render_spec (log : list (string * string)) : string :=
  match log with
  | [] => ""
  | (subQuery, response) :: log' =>
      "Q: " ++ subQuery ++ PyStr.nl ++ "A: " ++ response ++ PyStr.nl
      ++ render_spec log'
  end.

(** A reply has a bracket pair when a [']'] follows its first ['[']. *)
Definition has_bracket_pair (reply : string) : bool :=
  negb (PyStr.find "[" reply =? -1)
  && (PyStr.find "[" reply <? PyStr.rfind "]" reply).

(** The steps of the loop of [process_prompt_chain]: from the world [w]
    and the context [ctx], the prompts [ps] make the calls [calls], give
    the records [recs], and leave the world [w'] and the context [ctx']. *)
Inductive chain_steps {World : Type} (backend : World -> Call -> Outcome * World)
  : World -> string -> list string -> list (Call * Outcome)
    -> list (string * string) -> World -> string -> Prop :=
| chain_done w ctx : chain_steps backend w ctx [] [] [] w ctx
| chain_step w ctx p ps r w1 calls recs w' ctx' :
    backend w (mkCall "gpt-4o-mini" (context_prompt ctx p) 500) = (r, w1) ->
    chain_steps backend w1 (ctx ++ qa_entry p (response_of r)) ps
      calls recs w' ctx' ->
    chain_steps backend w ctx (p :: ps)
      ((mkCall "gpt-4o-mini" (context_prompt ctx p) 500, r) :: calls)
      ((p, response_of r) :: recs) w' ctx'.

(** The text that [ai_prompt_decomposition] hands to [json.loads]:
    [response_text[start_idx:end_idx]]. *)
Definition bracketed (response_text : string) : string :=
  PyStr.slice response_text (PyStr.find "[" response_text)
    (PyStr.rfind "]" response_text + 1).

(** The ways in which a decomposition fails softly, each with the
    exception text that is reported, if any: the backend call raises; the
    reply has no ['[']; the reply has a ['['] with no [']'] after it, so
    that the empty text is parsed; the bracketed text does not parse. *)
Inductive soft_failure (json_loads : string -> PyVal + Exn)
  : Outcome -> option string -> Prop :=
| gateway_failed e :
    soft_failure json_loads (inr e) (Some (str e))
| no_open_bracket reply :
    PyStr.has "[" reply = false ->
    soft_failure json_loads (inl reply) None
| no_bracket_after reply e :
    PyStr.has "[" reply = true ->
    has_bracket_pair reply = false ->
    json_loads "" = inr e ->
    soft_failure json_loads (inl reply) (Some (str e))
| unparsable reply e :
    PyStr.has "[" reply = true ->
    json_loads (bracketed reply) = inr e ->
    soft_failure json_loads (inl reply) (Some (str e)).

(** The events of a decomposition that fails softly. *)
Definition soft_failure_events (c : Call) (r : Outcome) (d : option string)
  : list Event :=
  EvCompletion c r ::
  match d with
  | Some msg => [EvStError ("Error in prompt decomposition: " ++ msg)]
  | None => []
  end.

(** The call that [ai_prompt_decomposition] makes. *)
Definition decomposition_call (complex_prompt : string) : Call :=
  mkCall "gpt-4o-mini" (decomposition_prompt complex_prompt) 500.

(** The state after the call of the decomposer, and after its report. *)
Definition called {World} (s : St World) (q : string) (r : Outcome)
    (w' : World) : St World :=
  mkSt World w' (trace World s ++ [EvCompletion (decomposition_call q) r])
    (session World s).

Definition reported {World} (s : St World) (q : string) (r : Outcome)
    (w' : World) (e : Exn) : St World :=
  mkSt World w'
    ((trace World s ++ [EvCompletion (decomposition_call q) r])
     ++ [EvStError ("Error in prompt decomposition: " ++ str e)])
    (session World s).

(** The event of a call. *)
Definition completion_event (cr : Call * Outcome) : Event :=
  EvCompletion (fst cr) (snd cr).

(** ** Backends for running the program *)

Module Mock.

(** A scripted backend: the world is the list of outcomes still to
    deliver, one per call; with none left the call raises. *)
Definition scripted (w : list Outcome) (c : Call) : Outcome * list Outcome :=
  match w with
  | [] => (inr (Exception "no reply"), [])
  | r :: w' => (r, w')
  end.

(** A deterministic backend that answers from the prompt alone. *)
Definition echo (w : nat) (c : Call) : Outcome * nat :=
  (inl ("re: " ++ call_prompt c), S w).

Definition answer_of (c : Call) : Outcome := inl ("re: " ++ call_prompt c).

(** A session whose configured model is not the default one. *)
Definition session0 : Session := mkSession [] true "claude-3-haiku".

Definition start {World} (w : World) : St World := mkSt World w [] session0.

(** The items of the reply in the specification's example. *)
Definition photosynthesis_items : string :=
  PyStr.quoted
    "'What is photosynthesis?', 'What are its industrial applications?'".

(** The items of an array that holds a number, an object and a nested list. *)
Definition mixed_items : string := PyStr.quoted "1, {'a': 2.5}, [3], 'x', null".

End Mock.

(** ** The chat handler

    The block that the script runs on a chat input (from
    [if prompt := st.chat_input(...)] to the end of the file), without its
    display widgets. *)

(** [str(i)] for the part number [i] of [enumerate(sub_prompts, 1)]. *)
Definition str_nat (i : nat) : string :=
  NilEmpty.string_of_uint (Nat.to_uint i).

(** The f-string of the handler that presents the context: the text of
    [context_template], indented as the handler's code is. *)
Definition part_template (context sub_prompt : string) : string :=
  let nl := PyStr.nl in
  let ind := PyStr.spaces 20 in
  nl ++ ind ++ "Given this context from previous responses: "
  ++ nl ++ ind ++ context
  ++ nl ++ ind
  ++ nl ++ ind ++ "Please address this follow-up question while considering the above context:"
  ++ nl ++ ind ++ sub_prompt
  ++ nl ++ ind.

Definition part_prompt (context sub_prompt : string) : string :=
  if PyStr.truthy context then part_template context sub_prompt
  else sub_prompt.

(** [f"**Part {i}**: {sub_prompt}\n\n{response}"] *)
Definition part_content (i : nat) (sub_prompt response : string) : string :=
  "**Part " ++ str_nat i ++ "**: " ++ sub_prompt ++ PyStr.nl ++ PyStr.nl
  ++ response.

(** The strings of a list whose elements are all of type [str]. *)
Fixpoint strings_of (l : list PyVal) : option (list string) :=
  match l with
  | [] => Some []
  | PyStr s :: l' =>
      match strings_of l' with
      | Some ss => Some (s :: ss)
      | None => None
      end
  | _ :: _ => None
  end.

Section Handler.

Variable World : Type.
Variable backend : World -> Call -> Outcome * World.
Variable json_loads : string -> PyVal + Exn.

(** What the loop over the parts does on a list that holds a value that
    is not a [str]: the content given to the backend is then not a text,
    and what happens is the backend's affair. *)
Variable answer_untyped_parts : list PyVal -> M World unit.

Local Notation "x <- m ;; k" := (bind World m (fun x => k))
  (at level 100, m at next level, right associativity).

(** [st.session_state.messages.append({"role": role, "content": content})] *)
Definition add_message (role content : string) : M World unit :=
  ss <- get_session World ;;
  put_session World
    (mkSession (messages ss ++ [(role, content)])
       (enable_prompt_splitting ss) (model ss)).

(** The [for] loop of the handler over [enumerate(sub_prompts, 1)], on
    the parts still to answer, from the number [i] of the next part and
    the current value of [context]. *)
Fixpoint answer_in_parts_loop (i : nat) (sub_prompts : list string)
    (context : string) : M World string :=
  match sub_prompts with
  | [] => ret World context
  | sub_prompt :: sub_prompts' =>
      response <- get_ai_response World backend
                    (part_prompt context sub_prompt) get_ai_response_model ;;
      _ <- add_message "assistant" (part_content i sub_prompt response) ;;
      answer_in_parts_loop (S i) sub_prompts'
        (context ++ qa_entry sub_prompt response)
  end.

Definition answer_in_parts (sub_prompts : list string) : M World unit :=
  _ <- answer_in_parts_loop 1 sub_prompts "" ;;
  ret World tt.

(** One run of the script on what [st.chat_input] returns: [None] when
    nothing was submitted, which is as false as the empty text. *)
Definition chat_input (submitted : option string) : M World unit :=
  match submitted with
  | None => ret World tt
  | Some prompt =>
      if PyStr.truthy prompt then
        _ <- add_message "user" prompt ;;
        ss <- get_session World ;;
        if enable_prompt_splitting ss then
          sub_prompts <- ai_prompt_decomposition World backend json_loads
                           prompt ;;
          if (1 <? length sub_prompts)%nat then
            match strings_of sub_prompts with
            | Some parts => answer_in_parts parts
            | None => answer_untyped_parts sub_prompts
            end
          else
            _ <- direct_answer World backend prompt ;;
            ret World tt
        else
          _ <- direct_answer World backend prompt ;;
          ret World tt
      else ret World tt
  end.

End Handler.

Arguments part_prompt : simpl never.
Arguments part_template : simpl never.
Arguments part_content : simpl never.

(** ** Reading a turn of the handler *)

(** The messages that the loop over the parts appends for the records
    [recs], numbered from [i]. *)
Fixpoint part_messages (i : nat) (recs : list (string * string))
  : list (string * string) :=
  match recs with
  | [] => []
  | (sub_prompt, response) :: recs' =>
      ("assistant", part_content i sub_prompt response)
      :: part_messages (S i) recs'
  end.

(** The steps of the loop over the parts, as [chain_steps] for the loop of
    [process_prompt_chain]. *)
Inductive part_steps {World : Type} (backend : World -> Call -> Outcome * World)
  : World -> string -> list string -> list (Call * Outcome)
    -> list (string * string) -> World -> string -> Prop :=
| parts_done w ctx : part_steps backend w ctx [] [] [] w ctx
| parts_step w ctx p ps r w1 calls recs w' ctx' :
    backend w (mkCall "gpt-4o-mini" (part_prompt ctx p) 500) = (r, w1) ->
    part_steps backend w1 (ctx ++ qa_entry p (response_of r)) ps
      calls recs w' ctx' ->
    part_steps backend w ctx (p :: ps)
      ((mkCall "gpt-4o-mini" (part_prompt ctx p) 500, r) :: calls)
      ((p, response_of r) :: recs) w' ctx'.

(** The number of characters that the records [log] add to the context. *)
Fixpoint entries_size (log : list (string * string)) : nat :=
  match log with
  | [] => 0
  | (prompt, response) :: log' =>
      String.length prompt + String.length response + 9 + entries_size log'
  end.

(** A session with another list of messages. *)
Definition with_messages (ss : Session) (ms : list (string * string))
  : Session :=
  mkSession ms (enable_prompt_splitting ss) (model ss).

(** ** Facts on Python strings *)

Module PyStrFacts.
Import PyStr.

Lemma append_assoc (a b c : string) : (a ++ b) ++ c = a ++ (b ++ c).
Proof. induction a as [|x a IH]; simpl; [reflexivity | now rewrite IH]. Qed.

Lemma append_nil_r (a : string) : a ++ "" = a.
Proof. induction a as [|x a IH]; simpl; [reflexivity | now rewrite IH]. Qed.

Lemma length_append (a b : string) :
  String.length (a ++ b) = (String.length a + String.length b)%nat.
Proof. induction a as [|x a IH]; simpl; [reflexivity | now rewrite IH]. Qed.

Lemma find_range c s : -1 <= find c s < Z.of_nat (String.length s) \/
                       (find c s = -1 /\ s = "").
Proof.
  induction s as [|a s IH]; simpl; [now right | left].
  destruct (Ascii.eqb a c); [lia |].
  destruct (find c s =? -1) eqn:E; [lia |].
  apply Z.eqb_neq in E. destruct IH as [IH | [IH _]]; lia.
Qed.

Lemma find_absent c s : has c s = false <-> find c s = -1.
Proof.
  induction s as [|a s IH]; simpl; [tauto |].
  destruct (Ascii.eqb a c); simpl; [split; [discriminate | lia] |].
  destruct (find c s =? -1) eqn:E.
  - apply Z.eqb_eq in E. tauto.
  - apply Z.eqb_neq in E. destruct (find_range c s) as [H | [H _]].
    + split; [intros H1; apply IH in H1; contradiction | lia].
    + contradiction.
Qed.

Lemma find_app c pre rest :
  has c pre = false ->
  find c (pre ++ String c rest) = Z.of_nat (String.length pre).
Proof.
  induction pre as [|a pre IH]; simpl.
  - now rewrite Ascii.eqb_refl.
  - intros H. apply orb_false_iff in H as [Ha Hp]. rewrite Ha.
    rewrite (IH Hp).
    destruct (Z.of_nat (String.length pre) =? -1) eqn:E; [| lia].
    apply Z.eqb_eq in E. lia.
Qed.

Lemma rfind_range c s : -1 <= rfind c s.
Proof.
  induction s as [|a s IH]; simpl; [lia |].
  destruct (rfind c s =? -1); [destruct (Ascii.eqb a c); lia | lia].
Qed.

Lemma rfind_absent c s : has c s = false -> rfind c s = -1.
Proof.
  induction s as [|a s IH]; simpl; [reflexivity |].
  intros H. apply orb_false_iff in H as [Ha Hs].
  rewrite (IH Hs), Ha. reflexivity.
Qed.

Lemma rfind_app c pre post :
  has c post = false ->
  rfind c (pre ++ String c post) = Z.of_nat (String.length pre).
Proof.
  intros H. induction pre as [|a pre IH]; simpl.
  - now rewrite (rfind_absent _ _ H), Ascii.eqb_refl.
  - rewrite IH.
    destruct (Z.of_nat (String.length pre) =? -1) eqn:E; [| lia].
    apply Z.eqb_eq in E. lia.
Qed.

(** The first [c] and the last [d] are at different places. *)
Lemma find_rfind_distinct c d s :
  c <> d -> find c s <> -1 -> find c s <> rfind d s.
Proof.
  intros Hcd. induction s as [|a s IH]; simpl; [congruence |].
  pose proof (rfind_range d s) as Hr.
  destruct (Ascii.eqb a c) eqn:Hac.
  - apply Ascii.eqb_eq in Hac. subst a. intros _.
    destruct (rfind d s =? -1) eqn:E.
    + destruct (Ascii.eqb c d) eqn:E'; [| lia].
      apply Ascii.eqb_eq in E'. contradiction.
    + apply Z.eqb_neq in E. lia.
  - destruct (find c s =? -1) eqn:Ef; [congruence |].
    apply Z.eqb_neq in Ef. intros _.
    destruct (find_range c s) as [Hf | [Hf _]]; [| contradiction].
    destruct (rfind d s =? -1) eqn:E.
    + destruct (Ascii.eqb a d); lia.
    + specialize (IH Ef). lia.
Qed.

Lemma substring_zero n s : substring n 0 s = "".
Proof.
  revert n. induction s as [|a s IH]; intros [|n]; simpl; auto.
Qed.

Lemma substring_prefix body post :
  substring 0 (String.length body) (body ++ post) = body.
Proof.
  induction body as [|a body IH]; simpl.
  - apply substring_zero.
  - now rewrite IH.
Qed.

Lemma substring_app pre body post :
  substring (String.length pre) (String.length body) (pre ++ body ++ post)
  = body.
Proof.
  induction pre as [|a pre IH]; simpl.
  - apply substring_prefix.
  - exact IH.
Qed.

(** [s[i:j]] with [0 <= j <= i] is empty. *)
Lemma slice_empty s start stop :
  0 <= start -> 0 <= stop <= start -> slice s start stop = "".
Proof.
  intros H0 H1. unfold slice, clamp.
  destruct (start <? 0) eqn:E1; [apply Z.ltb_lt in E1; lia |].
  destruct (stop <? 0) eqn:E2; [apply Z.ltb_lt in E2; lia |].
  set (n := Z.of_nat (String.length s)).
  replace (Z.to_nat (Z.min stop n - Z.min start n)) with 0%nat by lia.
  apply substring_zero.
Qed.

(** The slice that ends where [body] ends and starts where it starts. *)
Lemma slice_app pre body post :
  slice (pre ++ body ++ post) (Z.of_nat (String.length pre))
    (Z.of_nat (String.length pre) + Z.of_nat (String.length body))
  = body.
Proof.
  unfold slice, clamp. rewrite !length_append.
  destruct (_ <? 0) eqn:E1; [apply Z.ltb_lt in E1; lia |].
  destruct (_ + _ <? 0) eqn:E2; [apply Z.ltb_lt in E2; lia |].
  rewrite !Nat2Z.inj_add.
  set (a := Z.of_nat (String.length pre)).
  set (b := Z.of_nat (String.length body)).
  set (c := Z.of_nat (String.length post)).
  assert (Hc : 0 <= c) by (unfold c; lia).
  replace (Z.to_nat (Z.min (a + b) (a + (b + c)) - Z.min a (a + (b + c))))
    with (String.length body) by (unfold a, b in *; lia).
  replace (Z.to_nat (Z.min a (a + (b + c)))) with (String.length pre)
    by (unfold a, b in *; lia).
  apply substring_app.
Qed.

Lemma occurs_in_refl s : occurs_in s s.
Proof. exists "", "". simpl. now rewrite append_nil_r. Qed.

Lemma occurs_in_app_l s a b : occurs_in s a -> occurs_in s (a ++ b).
Proof.
  intros (pre & post & ->). exists pre, (post ++ b).
  now rewrite !append_assoc.
Qed.

Lemma occurs_in_app_r s a b : occurs_in s b -> occurs_in s (a ++ b).
Proof.
  intros (pre & post & ->). exists (a ++ pre), post.
  now rewrite !append_assoc.
Qed.

Lemma occurs_in_trans s t u : occurs_in s t -> occurs_in t u -> occurs_in s u.
Proof.
  intros (p1 & q1 & ->) (p2 & q2 & ->). exists (p2 ++ p1), (q1 ++ q2).
  now rewrite !append_assoc.
Qed.

End PyStrFacts.

(** ** The chain executor *)

Section ChainFacts.

Variable World : Type.
Variable backend : World -> Call -> Outcome * World.

Local Abbreviation St := (St World).
Local Abbreviation mkSt := (mkSt World).
Local Abbreviation get_ai_response := (get_ai_response World backend).
Local Abbreviation process_prompt_chain_loop := (process_prompt_chain_loop World backend).
Local Abbreviation process_prompt_chain := (process_prompt_chain World backend).
Local Abbreviation chain_steps := (chain_steps backend).

Lemma completions_app t1 t2 :
  completions (t1 ++ t2) = (completions t1 ++ completions t2)%list.
Proof.
  induction t1 as [|[c r|m] t1 IH]; simpl; [reflexivity | now rewrite IH | exact IH].
Qed.

Lemma diagnostics_app t1 t2 :
  diagnostics (t1 ++ t2) = (diagnostics t1 ++ diagnostics t2)%list.
Proof.
  induction t1 as [|[c r|m] t1 IH]; simpl; [reflexivity | exact IH | now rewrite IH].
Qed.

Lemma completions_events calls :
  completions (map completion_event calls) = calls.
Proof.
  induction calls as [|[c r] calls IH]; simpl; [reflexivity | now rewrite IH].
Qed.

Lemma diagnostics_events calls :
  diagnostics (map completion_event calls) = [].
Proof.
  induction calls as [|[c r] calls IH]; simpl; [reflexivity | exact IH].
Qed.

(** [get_ai_response] makes one call and never raises. *)
Lemma get_ai_response_run prompt model s r w' :
  backend (world World s) (mkCall model prompt 500) = (r, w') ->
  get_ai_response prompt model s
  = (inl (response_of r),
     mkSt w' (trace World s ++ [EvCompletion (mkCall model prompt 500) r])
       (session World s)).
Proof.
  intros H. unfold get_ai_response, try_except, completion.
  rewrite H. destruct r as [content | e]; reflexivity.
Qed.

Lemma process_prompt_chain_loop_cons prompt prompts responses context :
  process_prompt_chain_loop (prompt :: prompts) responses context
  = bind World
      (get_ai_response (context_prompt context prompt) get_ai_response_model)
      (fun response =>
         process_prompt_chain_loop prompts
           (responses ++ [(prompt, response)])
           (context ++ qa_entry prompt response)).
Proof. reflexivity. Qed.

(** The loop follows [chain_steps], whatever the backend does. *)
Lemma process_prompt_chain_loop_run prompts :
  forall responses context s,
  exists calls recs w' context',
    chain_steps (world World s) context prompts calls recs w' context' /\
    process_prompt_chain_loop prompts responses context s
    = (inl ((responses ++ recs)%list, context'),
       mkSt w' (trace World s ++ map completion_event calls)
         (session World s)).
Proof.
  induction prompts as [|p ps IH]; intros rs ctx s.
  - exists [], [], (world World s), ctx. split; [constructor |].
    simpl. unfold ret. rewrite !app_nil_r. now destruct s.
  - destruct (backend (world World s)
                (mkCall "gpt-4o-mini" (context_prompt ctx p) 500))
      as [r w1] eqn:Hb.
    specialize (IH (rs ++ [(p, response_of r)])%list
                  (ctx ++ qa_entry p (response_of r))
                  (mkSt w1 (trace World s ++
                     [EvCompletion (mkCall "gpt-4o-mini" (context_prompt ctx p) 500) r])%list
                     (session World s))).
    destruct IH as (calls & recs & w' & ctx' & Hsteps & Hrun).
    exists ((mkCall "gpt-4o-mini" (context_prompt ctx p) 500, r) :: calls),
           ((p, response_of r) :: recs), w', ctx'.
    split; [econstructor; eassumption |].
    rewrite process_prompt_chain_loop_cons. unfold bind.
    rewrite (get_ai_response_run (context_prompt ctx p) get_ai_response_model
               s r w1 Hb).
    cbv beta iota. unfold get_ai_response_model. rewrite Hrun. simpl. now rewrite <- !app_assoc.
Qed.

Lemma process_prompt_chain_run prompts w ss :
  exists calls recs w' context',
    chain_steps w "" prompts calls recs w' context' /\
    process_prompt_chain prompts (mkSt w [] ss)
    = (inl recs, mkSt w' (map completion_event calls) ss).
Proof.
  destruct (process_prompt_chain_loop_run prompts [] "" (mkSt w [] ss))
    as (calls & recs & w' & ctx' & Hsteps & Hrun).
  exists calls, recs, w', ctx'. split; [exact Hsteps |].
  unfold process_prompt_chain, bind.
  fold process_prompt_chain_loop. rewrite Hrun. reflexivity.
Qed.

(** *** What a chain of steps is made of *)

Lemma render_app l1 l2 : render (l1 ++ l2) = render l1 ++ render l2.
Proof.
  induction l1 as [|[q a] l1 IH]; cbn [render List.app]; [reflexivity |].
  now rewrite IH, PyStrFacts.append_assoc.
Qed.

Lemma chain_steps_length w ctx ps calls recs w' ctx' :
  chain_steps w ctx ps calls recs w' ctx' ->
  length calls = length ps /\ length recs = length ps.
Proof. induction 1; simpl; [auto | lia]. Qed.

Lemma chain_steps_prompts w ctx ps calls recs w' ctx' :
  chain_steps w ctx ps calls recs w' ctx' -> map fst recs = ps.
Proof. induction 1; simpl; [reflexivity | now f_equal]. Qed.

Lemma chain_steps_context w ctx ps calls recs w' ctx' :
  chain_steps w ctx ps calls recs w' ctx' -> ctx' = ctx ++ render recs.
Proof.
  induction 1; cbn [render].
  - now rewrite PyStrFacts.append_nil_r.
  - now rewrite IHchain_steps, PyStrFacts.append_assoc.
Qed.

Lemma chain_steps_model w ctx ps calls recs w' ctx' :
  chain_steps w ctx ps calls recs w' ctx' ->
  Forall (fun cr => call_model (fst cr) = "gpt-4o-mini"
                    /\ call_max_tokens (fst cr) = 500) calls.
Proof. induction 1; constructor; simpl; auto. Qed.

(** Step [i] is built from the context of the records before it. *)
Lemma chain_steps_nth w ctx ps calls recs w' ctx' :
  chain_steps w ctx ps calls recs w' ctx' ->
  forall i p, nth_error ps i = Some p ->
  exists r,
    nth_error calls i
    = Some (mkCall "gpt-4o-mini"
              (context_prompt (ctx ++ render (firstn i recs)) p) 500, r)
    /\ nth_error recs i = Some (p, response_of r).
Proof.
  induction 1 as [|w ctx p0 ps r w1 calls recs w' ctx' Hb Hsteps IH];
    intros i p Hi.
  - destruct i; discriminate.
  - destruct i as [|i]; cbn [nth_error firstn render] in *.
    + injection Hi as <-. exists r.
      now rewrite PyStrFacts.append_nil_r.
    + destruct (IH i p Hi) as (r' & Hc & Hr). exists r'.
      now rewrite <- PyStrFacts.append_assoc.
Qed.

End ChainFacts.

(** ** The decomposer *)

Section DecompositionFacts.

Variable World : Type.
Variable backend : World -> Call -> Outcome * World.
Variable json_loads : string -> PyVal + Exn.

Local Abbreviation St := (St World).
Local Abbreviation mkSt := (mkSt World).
Local Abbreviation ai_prompt_decomposition :=
  (ai_prompt_decomposition World backend json_loads).

(** What one run of [ai_prompt_decomposition] does, by the outcome of its
    call: the guard [end_idx != -1] never fails, because [end_idx] is
    [rfind(...) + 1]. *)
Lemma ai_prompt_decomposition_run q s r w' :
  backend (world World s) (decomposition_call q) = (r, w') ->
  ai_prompt_decomposition q s
  = match r with
    | inr e => (inl [PyStr q], reported s q r w' e)
    | inl reply =>
        if PyStr.has "[" reply then
          match json_loads (bracketed reply) with
          | inl v => (inl (if isinstance_list v then elements v else []),
                      called s q r w')
          | inr e => (inl [PyStr q], reported s q r w' e)
          end
        else (inl [PyStr q], called s q r w')
    end.
Proof.
  intros Hb.
  unfold ai_prompt_decomposition, try_except, bind, completion.
  fold (decomposition_call q). rewrite Hb.
  destruct r as [reply | e]; [| reflexivity].
  fold (bracketed reply).
  assert (Hend : (PyStr.rfind "]" reply + 1 =? -1) = false).
  { apply Z.eqb_neq. pose proof (PyStrFacts.rfind_range "]" reply). lia. }
  rewrite Hend, andb_true_r.
  destruct (PyStr.has "[" reply) eqn:Hhas.
  - assert (Hstart : (PyStr.find "[" reply =? -1) = false).
    { apply Z.eqb_neq. intros H. apply PyStrFacts.find_absent in H. congruence. }
    rewrite Hstart. cbn [negb]. unfold lift, ret.
    destruct (json_loads (bracketed reply)) as [v | e]; reflexivity.
  - apply PyStrFacts.find_absent in Hhas. rewrite Hhas. reflexivity.
Qed.

(** The text between the first ['['] and the last [']'] of a reply. *)
Lemma bracketed_app pre mid post :
  PyStr.has "[" pre = false ->
  PyStr.has "]" post = false ->
  bracketed (pre ++ "[" ++ mid ++ "]" ++ post) = "[" ++ mid ++ "]".
Proof.
  intros Hpre Hpost. unfold bracketed.
  change (pre ++ "[" ++ mid ++ "]" ++ post)
    with (pre ++ String "[" (mid ++ "]" ++ post)) at 2.
  rewrite (PyStrFacts.find_app _ _ _ Hpre).
  replace (pre ++ "[" ++ mid ++ "]" ++ post)
    with ((pre ++ "[" ++ mid) ++ String "]" post) at 2
    by (now rewrite !PyStrFacts.append_assoc).
  rewrite (PyStrFacts.rfind_app _ _ _ Hpost).
  replace (Z.of_nat (String.length (pre ++ "[" ++ mid)) + 1)
    with (Z.of_nat (String.length pre)
          + Z.of_nat (String.length ("[" ++ mid ++ "]"))).
  - replace (pre ++ "[" ++ mid ++ "]" ++ post)
      with (pre ++ ("[" ++ mid ++ "]") ++ post)
      by (now rewrite !PyStrFacts.append_assoc).
    apply PyStrFacts.slice_app.
  - rewrite !PyStrFacts.length_append. cbn [String.length]. lia.
Qed.

(** Without a [']'] after the first ['['], the empty text is parsed. *)
Lemma bracketed_no_pair reply :
  PyStr.has "[" reply = true ->
  has_bracket_pair reply = false ->
  bracketed reply = "".
Proof.
  intros Hhas Hpair. unfold has_bracket_pair in Hpair. unfold bracketed.
  assert (Hstart : PyStr.find "[" reply <> -1).
  { intros H. apply PyStrFacts.find_absent in H. congruence. }
  apply Z.eqb_neq in Hstart as Hs. rewrite Hs in Hpair. cbn [negb andb] in Hpair.
  apply Z.ltb_ge in Hpair.
  pose proof (PyStrFacts.rfind_range "]" reply).
  destruct (PyStrFacts.find_range "[" reply) as [Hr | [Hr _]]; [| contradiction].
  assert (Hne : PyStr.find "[" reply <> PyStr.rfind "]" reply)
    by (apply PyStrFacts.find_rfind_distinct; [discriminate | exact Hstart]).
  apply PyStrFacts.slice_empty; lia.
Qed.

(** A reply that carries a parsable text between its first ['['] and its
    last [']']: the decomposer returns what [json.loads] made of it. *)
Lemma ai_prompt_decomposition_parsed q s w' pre mid post v :
  backend (world World s) (decomposition_call q)
  = (inl (pre ++ "[" ++ mid ++ "]" ++ post), w') ->
  PyStr.has "[" pre = false ->
  PyStr.has "]" post = false ->
  json_loads ("[" ++ mid ++ "]") = inl v ->
  ai_prompt_decomposition q s
  = (inl (if isinstance_list v then elements v else []),
     called s q (inl (pre ++ "[" ++ mid ++ "]" ++ post)) w').
Proof.
  intros Hb Hpre Hpost Hv.
  rewrite (ai_prompt_decomposition_run _ _ _ _ Hb).
  assert (Hhas : PyStr.has "[" (pre ++ "[" ++ mid ++ "]" ++ post) = true).
  { destruct (PyStr.has "[" (pre ++ "[" ++ mid ++ "]" ++ post)) eqn:E;
      [reflexivity |].
    apply PyStrFacts.find_absent in E.
    change (pre ++ "[" ++ mid ++ "]" ++ post)
      with (pre ++ String "[" (mid ++ "]" ++ post)) in E.
    rewrite (PyStrFacts.find_app _ _ _ Hpre) in E. lia. }
  rewrite Hhas, (bracketed_app _ _ _ Hpre Hpost), Hv. reflexivity.
Qed.

End DecompositionFacts.

(** ** Properties of the chain executor *)

Section ChainClaims.

Variable World : Type.
Variable backend : World -> Call -> Outcome * World.

Local Abbreviation mkSt := (mkSt World).
Local Abbreviation process_prompt_chain_loop :=
  (process_prompt_chain_loop World backend).
Local Abbreviation process_prompt_chain := (process_prompt_chain World backend).

(** Every call of the chain names the default model of [get_ai_response]
    and its token budget, whatever the session holds. *)
Lemma process_prompt_chain_model w ss prompts :
  Forall (fun cr => call_model (fst cr) = "gpt-4o-mini"
                    /\ call_max_tokens (fst cr) = 500)
    (completions (trace World (snd (process_prompt_chain prompts (mkSt w [] ss))))).
Proof.
  destruct (process_prompt_chain_run World backend prompts w ss)
    as (calls & recs & w' & ctx' & Hsteps & Hrun).
  rewrite Hrun. cbn [snd trace]. rewrite completions_events.
  eapply chain_steps_model; eassumption.
Qed.

(** C7: for every list of sub-queries, a run of the chain executor returns
    exactly one record per sub-query; the first component of each record is
    the sub-query itself, not the prompt that wraps it; and the records are
    in the order of the input, whatever that order is. *)
Theorem chain_records_follow_prompts w ss prompts :
  exists recs s',
    process_prompt_chain prompts (mkSt w [] ss) = (inl recs, s')
    /\ length recs = length prompts
    /\ map fst recs = prompts.
Proof.
  destruct (process_prompt_chain_run World backend prompts w ss)
    as (calls & recs & w' & ctx' & Hsteps & Hrun).
  exists recs, (mkSt w' (map completion_event calls) ss).
  split; [exact Hrun |]. split.
  - eapply chain_steps_length; eassumption.
  - eapply chain_steps_prompts; eassumption.
Qed.

(** The context of a step that has a predecessor ends with the entry of
    that predecessor, and the prompt presents it. *)
Lemma previous_entry_in_prompt (recs : list (string * string)) k q a p :
  nth_error recs k = Some (q, a) ->
  PyStr.occurs_in (qa_entry q a)
    (context_prompt (render (firstn (S k) recs)) p).
Proof.
  intros Hk.
  assert (Hsplit : firstn (S k) recs = (firstn k recs ++ [(q, a)])%list).
  { revert recs Hk. induction k as [|k IH]; intros [|x recs] Hk;
      try discriminate; cbn [nth_error] in Hk.
    - injection Hk as ->. reflexivity.
    - cbn [firstn List.app]. f_equal. change (firstn (S k) recs
        = (firstn k recs ++ [(q, a)])%list). now apply IH. }
  rewrite Hsplit, render_app. cbn [render].
  rewrite PyStrFacts.append_nil_r.
  set (ctx := render (firstn k recs) ++ qa_entry q a).
  assert (Hctx : PyStr.occurs_in (qa_entry q a) ctx)
    by (apply PyStrFacts.occurs_in_app_r, PyStrFacts.occurs_in_refl).
  assert (Htruthy : PyStr.truthy ctx = true).
  { unfold ctx. destruct (render (firstn k recs)); reflexivity. }
  unfold context_prompt. rewrite Htruthy. unfold context_template.
  eapply PyStrFacts.occurs_in_trans; [exact Hctx |].
  cbv zeta. do 5 apply PyStrFacts.occurs_in_app_r.
  apply PyStrFacts.occurs_in_app_l, PyStrFacts.occurs_in_refl.
Qed.

(** C4: when the backend call of step [k] raises, the run still returns one
    record per sub-query; the response of record [k] is ["Error: "] followed
    by the text of the exception; and the prompt of step [k+1], when there
    is one, contains that text as the [A:] line of step [k]. No failure of
    the backend stops the steps that follow. *)
Theorem chain_survives_backend_failure w ss prompts k c e :
  nth_error
    (completions
       (trace World (snd (process_prompt_chain prompts (mkSt w [] ss))))) k
  = Some (c, inr e) ->
  exists recs s' q,
    process_prompt_chain prompts (mkSt w [] ss) = (inl recs, s')
    /\ length recs = length prompts
    /\ length (completions (trace World s')) = length prompts
    /\ nth_error prompts k = Some q
    /\ nth_error recs k = Some (q, "Error: " ++ str e)
    /\ forall p, nth_error prompts (S k) = Some p ->
         exists c' r',
           nth_error (completions (trace World s')) (S k) = Some (c', r')
           /\ PyStr.occurs_in
                (PyStr.nl ++ "Q: " ++ q ++ PyStr.nl ++ "A: Error: " ++ str e
                 ++ PyStr.nl)
                (call_prompt c').
Proof.
  destruct (process_prompt_chain_run World backend prompts w ss)
    as (calls & recs & w' & ctx' & Hsteps & Hrun).
  rewrite Hrun. cbn [snd trace]. rewrite completions_events. intros Hk.
  pose proof (chain_steps_length _ _ _ _ _ _ _ _ _ Hsteps) as [Hlc Hlr].
  assert (Hlt : (k < length prompts)%nat).
  { rewrite <- Hlc. apply nth_error_Some. congruence. }
  destruct (nth_error prompts k) as [q|] eqn:Hq;
    [| apply nth_error_None in Hq; lia].
  destruct (chain_steps_nth _ _ _ _ _ _ _ _ _ Hsteps k q Hq) as (r & Hc & Hr).
  rewrite Hk in Hc. injection Hc as Hc <-.
  exists recs, (mkSt w' (map completion_event calls) ss), q.
  cbn [trace]. rewrite completions_events.
  repeat (split; [first [reflexivity | assumption] |]).
  intros p Hp.
  destruct (chain_steps_nth _ _ _ _ _ _ _ _ _ Hsteps (S k) p Hp)
    as (r' & Hc' & Hr').
  eexists _, r'. split; [exact Hc' |]. cbn [call_prompt].
  apply (previous_entry_in_prompt recs k q ("Error: " ++ str e) p Hr).
Qed.

(** C8, as the code has it: the context of an empty log is the empty
    string (a run over no sub-query ends with no record and the empty
    context); the context that the loop has built when it ends is exactly the
    concatenation, in log order, of a newline, [Q: subQuery], a newline,
    [A: response] and a newline for each record; a sub-query wrapped with
    an empty context is unchanged, and a sub-query wrapped with a non-empty
    context is the template, which contains the context and the
    sub-query. *)
Theorem context_rendering w ss prompts :
  exists recs context s',
    process_prompt_chain_loop prompts [] "" (mkSt w [] ss)
    = (inl (recs, context), s')
    /\ context
       = String.concat ""
           (map (fun qa => PyStr.nl ++ "Q: " ++ fst qa ++ PyStr.nl
                           ++ "A: " ++ snd qa ++ PyStr.nl) recs)
    /\ length recs = length prompts
    /\ fst (process_prompt_chain_loop [] [] "" (mkSt w [] ss)) = inl ([], "")
    /\ (forall subQuery, context_prompt "" subQuery = subQuery)
    /\ (forall a ctx subQuery,
          context_prompt (String a ctx) subQuery
          = context_template (String a ctx) subQuery
          /\ PyStr.occurs_in (String a ctx)
               (context_prompt (String a ctx) subQuery)
          /\ PyStr.occurs_in subQuery
               (context_prompt (String a ctx) subQuery)).
Proof.
  destruct (process_prompt_chain_loop_run World backend prompts [] ""
              (mkSt w [] ss)) as (calls & recs & w' & ctx' & Hsteps & Hrun).
  exists recs, ctx', (mkSt w' (map completion_event calls) ss).
  split; [exact Hrun |]. split.
  - rewrite (chain_steps_context _ _ _ _ _ _ _ _ _ Hsteps). cbn [append].
    clear. induction recs as [|[q a] recs IH]; [reflexivity |].
    cbn [render map fst snd]. rewrite IH. unfold qa_entry.
    destruct recs as [|x recs]; cbn [map String.concat].
    + rewrite PyStrFacts.append_nil_r. reflexivity.
    + reflexivity.
  - split; [eapply chain_steps_length; eassumption |].
    split; [reflexivity |]. split; [reflexivity |].
    intros a ctx q. split; [reflexivity |].
    unfold context_prompt. cbn [PyStr.truthy]. unfold context_template.
    cbv zeta. split.
    + do 5 apply PyStrFacts.occurs_in_app_r.
      apply PyStrFacts.occurs_in_app_l, PyStrFacts.occurs_in_refl.
    + do 13 apply PyStrFacts.occurs_in_app_r.
      apply PyStrFacts.occurs_in_app_l, PyStrFacts.occurs_in_refl.
Qed.

End ChainClaims.

(** Two chains over backends that answer alike make the same calls and
    give the same records. *)
Lemma chain_steps_deterministic
    (W1 W2 : Type) (b1 : W1 -> Call -> Outcome * W1)
    (b2 : W2 -> Call -> Outcome * W2) (f : Call -> Outcome) :
  (forall w c, fst (b1 w c) = f c) ->
  (forall w c, fst (b2 w c) = f c) ->
  forall w1 ctx ps calls1 recs1 w1' ctx1',
    chain_steps b1 w1 ctx ps calls1 recs1 w1' ctx1' ->
    forall w2 calls2 recs2 w2' ctx2',
      chain_steps b2 w2 ctx ps calls2 recs2 w2' ctx2' ->
      calls1 = calls2 /\ recs1 = recs2.
Proof.
  intros H1 H2 w1 ctx ps calls1 recs1 w1' ctx1' Hs1.
  induction Hs1 as [|w ctx p ps r w1 calls recs w' ctx' Hb Hs IH];
    intros w2 calls2 recs2 w2' ctx2' Hs2; inversion Hs2; subst.
  - split; reflexivity.
  - match goal with
    | Hb2 : b2 ?v ?c = (?r2, _) |- _ =>
        pose proof (H1 w c) as E1; pose proof (H2 v c) as E2;
        rewrite Hb in E1; rewrite Hb2 in E2; cbn [fst] in E1, E2;
        assert (Hr : r = r2) by congruence; clear E1 E2; subst r2
    end.
    match goal with
    | Hrest : chain_steps b2 _ _ ps _ _ _ _ |- _ =>
        destruct (IH _ _ _ _ _ Hrest) as [-> ->]
    end.
    split; reflexivity.
Qed.

(** C10: the chain executor adds no nondeterminism of its own. When the
    backend answers as a function of the call alone, two runs on the same
    sub-queries, from any two worlds and sessions (and even over two
    backends that answer by the same function), return identical lists of
    records. *)
Theorem chain_deterministic
    (W1 W2 : Type) (b1 : W1 -> Call -> Outcome * W1)
    (b2 : W2 -> Call -> Outcome * W2) (f : Call -> Outcome)
    (w1 : W1) (w2 : W2) (ss1 ss2 : Session) (prompts : list string) :
  (forall w c, fst (b1 w c) = f c) ->
  (forall w c, fst (b2 w c) = f c) ->
  fst (process_prompt_chain W1 b1 prompts (mkSt W1 w1 [] ss1))
  = fst (process_prompt_chain W2 b2 prompts (mkSt W2 w2 [] ss2)).
Proof.
  intros H1 H2.
  destruct (process_prompt_chain_run W1 b1 prompts w1 ss1)
    as (calls1 & recs1 & w1' & ctx1 & Hs1 & Hrun1).
  destruct (process_prompt_chain_run W2 b2 prompts w2 ss2)
    as (calls2 & recs2 & w2' & ctx2 & Hs2 & Hrun2).
  rewrite Hrun1, Hrun2. cbn [fst].
  destruct (chain_steps_deterministic W1 W2 b1 b2 f H1 H2
              _ _ _ _ _ _ _ Hs1 _ _ _ _ _ Hs2) as [_ ->].
  reflexivity.
Qed.

(** ** Properties of the decomposer *)

Section DecompositionClaims.

Variable World : Type.
Variable backend : World -> Call -> Outcome * World.
Variable json_loads : string -> PyVal + Exn.

Local Abbreviation mkSt := (mkSt World).
Local Abbreviation ai_prompt_decomposition :=
  (ai_prompt_decomposition World backend json_loads).

(** C5: when the reply holds, between its first ['['] and its last [']']
    and possibly with prose around, a text that parses to a JSON array of
    one or more strings, the decomposer returns exactly these strings, in
    the same order. *)
Theorem decomposition_returns_the_array q s w' pre mid post subs :
  backend (world World s) (decomposition_call q)
  = (inl (pre ++ "[" ++ mid ++ "]" ++ post), w') ->
  PyStr.has "[" pre = false ->
  PyStr.has "]" post = false ->
  json_loads ("[" ++ mid ++ "]") = inl (PyList (map PyStr subs)) ->
  subs <> [] ->
  fst (ai_prompt_decomposition q s) = inl (map PyStr subs).
Proof.
  intros Hb Hpre Hpost Hv _.
  now rewrite (ai_prompt_decomposition_parsed World backend json_loads
                 q s w' pre mid post _ Hb Hpre Hpost Hv).
Qed.

(** C9: the decomposer does not look at the elements of the parsed list.
    When the bracketed text of the reply parses to a list, that list is
    returned as it is, whatever its elements are: numbers, objects and
    nested lists pass through unchanged. *)
Theorem decomposition_passes_elements_through q s w' pre mid post l :
  backend (world World s) (decomposition_call q)
  = (inl (pre ++ "[" ++ mid ++ "]" ++ post), w') ->
  PyStr.has "[" pre = false ->
  PyStr.has "]" post = false ->
  json_loads ("[" ++ mid ++ "]") = inl (PyList l) ->
  fst (ai_prompt_decomposition q s) = inl l.
Proof.
  intros Hb Hpre Hpost Hv.
  now rewrite (ai_prompt_decomposition_parsed World backend json_loads
                 q s w' pre mid post _ Hb Hpre Hpost Hv).
Qed.

(** C6, as the code has it: when the backend call of the decomposer
    raises, when the reply has a ['['] with no [']'] after it or a bracketed
    text that does not parse, the decomposer returns the singleton of the
    query and reports the exception once through [st.error], which does
    not stop it; when the reply has no ['['], it returns the singleton of
    the query and reports nothing. *)
Theorem decomposition_soft_failure q s r w' d :
  backend (world World s) (decomposition_call q) = (r, w') ->
  soft_failure json_loads r d ->
  ai_prompt_decomposition q s
  = (inl [PyStr q],
     mkSt w'
       (trace World s ++ soft_failure_events (decomposition_call q) r d)
       (session World s)).
Proof.
  intros Hb Hfail.
  rewrite (ai_prompt_decomposition_run World backend json_loads q s r w' Hb).
  unfold soft_failure_events, reported, called.
  destruct Hfail as [e | reply Hno | reply e Hhas Hpair He | reply e Hhas He].
  - now rewrite <- app_assoc.
  - now rewrite Hno.
  - rewrite Hhas, (bracketed_no_pair reply Hhas Hpair), He.
    now rewrite <- app_assoc.
  - rewrite Hhas, He. now rewrite <- app_assoc.
Qed.

End DecompositionClaims.

(** ** Runs on concrete inputs *)

Module Runs.
Import Mock.

Local Abbreviation chain := (process_prompt_chain (list Outcome) scripted).
Local Abbreviation chain_loop :=
  (process_prompt_chain_loop (list Outcome) scripted).
Local Abbreviation decompose :=
  (ai_prompt_decomposition (list Outcome) scripted Json.loads).

(** C2: with the model of the session set to [claude-3-haiku], the two
    calls of a chain over two sub-queries name the model [gpt-4o-mini],
    the default of [get_ai_response], and not the configured one, while
    the direct answer of the same session names the configured model. *)
Theorem chain_ignores_configured_model :
  model session0 = "claude-3-haiku"
  /\ map (fun cr => call_model (fst cr))
       (completions
          (trace _ (snd (chain ["a"; "b"] (start [inl "x"; inl "y"])))))
     = ["gpt-4o-mini"; "gpt-4o-mini"]
  /\ map (fun cr => call_model (fst cr))
       (completions
          (trace _ (snd (direct_answer (list Outcome) scripted "a"
                           (start [inl "x"])))))
     = ["claude-3-haiku"].
Proof. repeat split; reflexivity. Qed.

Lemma chain_survives_backend_failure_witness :
  nth_error
    (completions
       (trace _ (snd (chain ["a"; "b"; "c"]
                        (mkSt _ [inl "ok"; inr (Exception "timeout"); inl "fine"]
                           [] session0))))) 1
  = Some (mkCall "gpt-4o-mini" (context_prompt (qa_entry "a" "ok") "b") 500,
          inr (Exception "timeout"))
  /\ exists recs s' q,
       chain ["a"; "b"; "c"]
         (mkSt _ [inl "ok"; inr (Exception "timeout"); inl "fine"] [] session0)
       = (inl recs, s')
       /\ length recs = 3%nat
       /\ length (completions (trace _ s')) = 3%nat
       /\ nth_error ["a"; "b"; "c"] 1 = Some q
       /\ nth_error recs 1 = Some (q, "Error: timeout")
       /\ forall p, nth_error ["a"; "b"; "c"] 2 = Some p ->
            exists c' r',
              nth_error (completions (trace _ s')) 2 = Some (c', r')
              /\ PyStr.occurs_in
                   (PyStr.nl ++ "Q: " ++ q ++ PyStr.nl ++ "A: Error: "
                    ++ "timeout" ++ PyStr.nl)
                   (call_prompt c').
Proof.
  split; [reflexivity |].
  apply (chain_survives_backend_failure (list Outcome) scripted
           [inl "ok"; inr (Exception "timeout"); inl "fine"] session0
           ["a"; "b"; "c"] 1
           (mkCall "gpt-4o-mini" (context_prompt (qa_entry "a" "ok") "b") 500)
           (Exception "timeout")).
  reflexivity.
Defined.

Lemma chain_deterministic_witness :
  (forall w c, fst (echo w c) = answer_of c)
  /\ fst (process_prompt_chain nat echo ["a"; "b"] (mkSt _ 0%nat [] session0))
     = fst (process_prompt_chain nat echo ["a"; "b"]
              (mkSt _ 7%nat [] (mkSession [("user", "hi")] false "gpt-4o"))).
Proof.
  split; [intros w c; reflexivity |].
  apply (chain_deterministic nat nat echo echo answer_of 0%nat 7%nat
           session0 (mkSession [("user", "hi")] false "gpt-4o") ["a"; "b"]);
    intros w c; reflexivity.
Defined.

Lemma decomposition_returns_the_array_witness :
  scripted [inl ("Sure! " ++ "[" ++ photosynthesis_items ++ "]" ++ "")]
    (decomposition_call "Explain photosynthesis and its uses")
  = (inl ("Sure! " ++ "[" ++ photosynthesis_items ++ "]" ++ ""), [])
  /\ PyStr.has "[" "Sure! " = false
  /\ PyStr.has "]" "" = false
  /\ Json.loads ("[" ++ photosynthesis_items ++ "]")
     = inl (PyList (map PyStr ["What is photosynthesis?";
                               "What are its industrial applications?"]))
  /\ fst (decompose "Explain photosynthesis and its uses"
            (start [inl ("Sure! " ++ "[" ++ photosynthesis_items ++ "]" ++ "")]))
     = inl [PyStr "What is photosynthesis?";
            PyStr "What are its industrial applications?"].
Proof.
  repeat (split; [reflexivity |]).
  apply (decomposition_returns_the_array (list Outcome) scripted Json.loads
           "Explain photosynthesis and its uses"
           (start [inl ("Sure! " ++ "[" ++ photosynthesis_items ++ "]" ++ "")])
           [] "Sure! " photosynthesis_items ""
           ["What is photosynthesis?"; "What are its industrial applications?"]);
    [reflexivity | reflexivity | reflexivity | reflexivity | discriminate].
Defined.

Lemma decomposition_passes_elements_through_witness :
  Json.loads ("[" ++ mixed_items ++ "]")
  = inl (PyList [PyInt 1; PyDict [("a", PyFloat "2.5")]; PyList [PyInt 3];
                 PyStr "x"; PyNone])
  /\ fst (decompose "q"
            (start [inl ("Here: " ++ "[" ++ mixed_items ++ "]" ++ " done.")]))
     = inl [PyInt 1; PyDict [("a", PyFloat "2.5")]; PyList [PyInt 3];
            PyStr "x"; PyNone].
Proof.
  split; [reflexivity |].
  apply (decomposition_passes_elements_through (list Outcome) scripted
           Json.loads "q"
           (start [inl ("Here: " ++ "[" ++ mixed_items ++ "]" ++ " done.")])
           [] "Here: " mixed_items " done.");
    reflexivity.
Defined.

Lemma decomposition_soft_failure_witness :
  soft_failure Json.loads (inl "Here you go: [not json]")
    (Some "JSONDecodeError")
  /\ decompose "Plan a trip" (start [inl "Here you go: [not json]"])
     = (inl [PyStr "Plan a trip"],
        mkSt _ []
          [EvCompletion (decomposition_call "Plan a trip")
             (inl "Here you go: [not json]");
           EvStError "Error in prompt decomposition: JSONDecodeError"]
          session0).
Proof.
  assert (H : soft_failure Json.loads (inl "Here you go: [not json]")
                (Some (str (Exception "JSONDecodeError"))))
    by (apply unparsable; reflexivity).
  split; [exact H |].
  apply (decomposition_soft_failure (list Outcome) scripted Json.loads
           "Plan a trip" (start [inl "Here you go: [not json]"])
           (inl "Here you go: [not json]") []
           (Some "JSONDecodeError")); [reflexivity | exact H].
Defined.

(** The other soft failures, run: the call raises; the reply has a ['[']
    and no [']'] after it; the reply has no ['[']. *)
Example decomposition_backend_raises :
  decompose "Plan a trip" (start [inr (Exception "quota exceeded")])
  = (inl [PyStr "Plan a trip"],
     mkSt _ []
       [EvCompletion (decomposition_call "Plan a trip")
          (inr (Exception "quota exceeded"));
        EvStError "Error in prompt decomposition: quota exceeded"]
       session0).
Proof. reflexivity. Qed.

Example decomposition_no_closing_bracket :
  has_bracket_pair "] and then [" = false
  /\ decompose "Plan a trip" (start [inl "] and then ["])
     = (inl [PyStr "Plan a trip"],
        mkSt _ []
          [EvCompletion (decomposition_call "Plan a trip")
             (inl "] and then [");
           EvStError "Error in prompt decomposition: JSONDecodeError"]
          session0).
Proof. split; reflexivity. Qed.

(** C1, refuted as stated: on the reply ["[]"], whose bracketed text parses
    to the empty list, the decomposer returns the empty list and not the
    singleton of the query. *)
Lemma decomposition_empty_list_counterexample :
  Json.loads (bracketed "[]") = inl (PyList [])
  /\ fst (decompose "What is X?" (start [inl "[]"])) = inl []
  /\ ~ (exists l, fst (decompose "What is X?" (start [inl "[]"])) = inl l
                  /\ l <> [])
  /\ fst (decompose "What is X?" (start [inl "[]"]))
     <> inl [PyStr "What is X?"].
Proof.
  split; [reflexivity |]. split; [reflexivity |]. split.
  - intros (l & Hl & Hne). apply Hne.
    change (fst (decompose "What is X?" (start [inl "[]"])))
      with (@inl (list PyVal) Exn []) in Hl.
    now injection Hl as <-.
  - discriminate.
Qed.

(** C6, refuted as stated: on a reply with no bracket at all the
    decomposer returns the singleton of the query, but nothing is given to
    [st.error]: the problem is not reported. *)
Lemma decomposition_silent_fallback_counterexample :
  has_bracket_pair "I cannot break this down." = false
  /\ fst (decompose "Plan a trip" (start [inl "I cannot break this down."]))
     = inl [PyStr "Plan a trip"]
  /\ ~ (exists msg,
          In msg
            (diagnostics
               (trace _ (snd (decompose "Plan a trip"
                                (start [inl "I cannot break this down."])))))).
Proof.
  split; [reflexivity |]. split; [reflexivity |].
  intros (msg & Hin). exact Hin.
Qed.

(** C8, refuted as stated: after one exchange the context starts with a
    newline, which the rendering of the specification does not have. *)
Lemma context_rendering_counterexample :
  fst (chain_loop ["a"] [] "" (start [inl "b"]))
  = inl ([("a", "b")], PyStr.nl ++ "Q: a" ++ PyStr.nl ++ "A: b" ++ PyStr.nl)
  /\ render_spec [("a", "b")] = "Q: a" ++ PyStr.nl ++ "A: b" ++ PyStr.nl
  /\ PyStr.nl ++ "Q: a" ++ PyStr.nl ++ "A: b" ++ PyStr.nl
     <> render_spec [("a", "b")].
Proof.
  split; [reflexivity |]. split; [reflexivity |]. discriminate.
Qed.

End Runs.

(** ** More on the chain executor *)

Section ChainMore.

Variable World : Type.
Variable backend : World -> Call -> Outcome * World.

Local Abbreviation mkSt := (mkSt World).
Local Abbreviation get_ai_response := (get_ai_response World backend).
Local Abbreviation process_prompt_chain_loop :=
  (process_prompt_chain_loop World backend).
Local Abbreviation process_prompt_chain := (process_prompt_chain World backend).

(** X1: [get_ai_response] never raises: it makes one call, with the model and
    the prompt it was given and a budget of 500 tokens, makes no second
    attempt, reports nothing and leaves the session alone; it returns the
    content of the reply, or ["Error: "] and the text of the exception. *)
Theorem get_ai_response_never_raises prompt model s :
  exists v s' r,
    get_ai_response prompt model s = (inl v, s')
    /\ session World s' = session World s
    /\ diagnostics (trace World s') = diagnostics (trace World s)
    /\ completions (trace World s')
       = (completions (trace World s) ++ [(mkCall model prompt 500, r)])%list
    /\ match r with
       | inl content => v = content
       | inr e => v = "Error: " ++ str e
       end.
Proof.
  destruct (backend (world World s) (mkCall model prompt 500)) as [r w'] eqn:Hb.
  eexists _, _, r. split; [apply (get_ai_response_run World backend _ _ _ _ _ Hb) |].
  cbn [session trace]. rewrite completions_app, diagnostics_app. cbn.
  rewrite app_nil_r. repeat split. destruct r; reflexivity.
Qed.

(** The loop on [ps1 ++ ps2] is the loop on [ps1] followed by the loop on
    [ps2] from the variables and the state that the first one leaves. *)
Lemma process_prompt_chain_loop_app ps1 ps2 :
  forall responses context s,
    process_prompt_chain_loop (ps1 ++ ps2) responses context s
    = match process_prompt_chain_loop ps1 responses context s with
      | (inl (responses1, context1), s1) =>
          process_prompt_chain_loop ps2 responses1 context1 s1
      | (inr e, s1) => (inr e, s1)
      end.
Proof.
  induction ps1 as [|p ps1 IH]; intros rs ctx s; [reflexivity |].
  cbn [List.app]. rewrite !process_prompt_chain_loop_cons. unfold bind.
  destruct (get_ai_response (context_prompt ctx p) get_ai_response_model s)
    as [[response | e] s1]; [apply IH | reflexivity].
Qed.

(** X2: whatever its start state, a run of the chain never raises, makes one
    call per sub-query, reports nothing through [st.error], leaves the
    session as it was and only adds to the trace. *)
Theorem chain_effects prompts s :
  exists recs s' events,
    process_prompt_chain prompts s = (inl recs, s')
    /\ session World s' = session World s
    /\ trace World s' = (trace World s ++ events)%list
    /\ diagnostics events = []
    /\ length (completions events) = length prompts.
Proof.
  destruct (process_prompt_chain_loop_run World backend prompts [] "" s)
    as (calls & recs & w' & ctx' & Hsteps & Hrun).
  exists recs, (mkSt w' (trace World s ++ map completion_event calls)
                  (session World s)), (map completion_event calls).
  split.
  - unfold process_prompt_chain, bind. fold process_prompt_chain_loop.
    rewrite Hrun. reflexivity.
  - cbn [session trace]. rewrite diagnostics_events, completions_events.
    repeat split. eapply chain_steps_length; eassumption.
Qed.

(** X3: the chain does not look ahead: the records for the sub-queries
    [ps1 ++ ps2] start with the records that a run on [ps1] alone gives
    from the same state, and its calls start with the calls of that run. *)
Theorem chain_prefix ps1 ps2 s :
  exists recs1 recs2 s1 s2 events,
    process_prompt_chain ps1 s = (inl recs1, s1)
    /\ process_prompt_chain (ps1 ++ ps2) s = (inl (recs1 ++ recs2)%list, s2)
    /\ trace World s2 = (trace World s1 ++ events)%list
    /\ length recs2 = length ps2.
Proof.
  destruct (process_prompt_chain_loop_run World backend ps1 [] "" s)
    as (calls1 & recs1 & w1 & ctx1 & Hsteps1 & Hrun1).
  set (s1 := mkSt w1 (trace World s ++ map completion_event calls1)
               (session World s)) in *.
  destruct (process_prompt_chain_loop_run World backend ps2 recs1 ctx1 s1)
    as (calls2 & recs2 & w2 & ctx2 & Hsteps2 & Hrun2).
  exists recs1, recs2, s1,
    (mkSt w2 (trace World s1 ++ map completion_event calls2) (session World s1)),
    (map completion_event calls2).
  unfold process_prompt_chain, bind. fold process_prompt_chain_loop.
  rewrite process_prompt_chain_loop_app, Hrun1. cbn [List.app].
  rewrite Hrun2. repeat split.
  eapply chain_steps_length; eassumption.
Qed.

Lemma length_qa_entry q a :
  String.length (qa_entry q a) = (String.length q + String.length a + 9)%nat.
Proof.
  unfold qa_entry. rewrite !PyStrFacts.length_append. cbn [String.length PyStr.nl].
  lia.
Qed.

Lemma length_render log : String.length (render log) = entries_size log.
Proof.
  induction log as [|[q a] log IH]; [reflexivity |].
  cbn [render entries_size].
  rewrite PyStrFacts.length_append, length_qa_entry, IH. reflexivity.
Qed.

Lemma length_context_template ctx p :
  String.length (context_template ctx p)
  = (String.length ctx + String.length p + 197)%nat.
Proof.
  unfold context_template. cbv zeta. rewrite !PyStrFacts.length_append.
  cbn [String.length PyStr.nl PyStr.spaces]. lia.
Qed.

Lemma truthy_render_firstn (recs : list (string * string)) k :
  recs <> [] -> PyStr.truthy (render (firstn (S k) recs)) = true.
Proof.
  destruct recs as [|[q a] recs]; [congruence | reflexivity].
Qed.

(** X4: the context is never cut: from the second step on, the prompt of a
    step is longer than its sub-query by the 197 characters of the template
    and by the whole of the exchanges before it, which count their
    sub-query, their response and 9 characters each. *)
Theorem chain_prompt_size w ss prompts k p :
  nth_error prompts (S k) = Some p ->
  exists recs s' c r,
    process_prompt_chain prompts (mkSt w [] ss) = (inl recs, s')
    /\ nth_error (completions (trace World s')) (S k) = Some (c, r)
    /\ String.length (call_prompt c)
       = (String.length p + entries_size (firstn (S k) recs) + 197)%nat
    /\ length (firstn (S k) recs) = S k.
Proof.
  intros Hk.
  destruct (process_prompt_chain_run World backend prompts w ss)
    as (calls & recs & w' & ctx' & Hsteps & Hrun).
  destruct (chain_steps_nth _ _ _ _ _ _ _ _ _ Hsteps (S k) p Hk)
    as (r & Hc & Hr).
  eexists recs, _, _, r. split; [exact Hrun |].
  cbn [trace]. rewrite completions_events. split; [exact Hc |].
  pose proof (chain_steps_length _ _ _ _ _ _ _ _ _ Hsteps) as [_ Hlen].
  assert (Hlt : (S k < length prompts)%nat)
    by (apply nth_error_Some; congruence).
  split; [| rewrite length_firstn; lia].
  cbn [call_prompt append]. unfold context_prompt.
  rewrite truthy_render_firstn by (destruct recs; [cbn in Hlen; lia | discriminate]).
  rewrite length_context_template, length_render. lia.
Qed.

End ChainMore.

(** ** More on the decomposer *)

(** From the place of the first [c] on, a text starts with [c]. *)
Lemma substring_at_find c s m :
  PyStr.find c s <> -1 ->
  exists t, substring (Z.to_nat (PyStr.find c s)) (S m) s = String c t.
Proof.
  induction s as [|a s IH]; cbn [PyStr.find]; [congruence |].
  destruct (Ascii.eqb a c) eqn:Hac.
  - apply Ascii.eqb_eq in Hac. subst a. intros _. eexists. reflexivity.
  - destruct (PyStr.find c s =? -1) eqn:Ef; [congruence |].
    apply Z.eqb_neq in Ef. intros _. destruct (IH Ef) as (t & Ht).
    exists t.
    destruct (PyStrFacts.find_range c s) as [Hr | [Hr _]]; [| contradiction].
    replace (Z.to_nat (PyStr.find c s + 1))
      with (S (Z.to_nat (PyStr.find c s))) by lia.
    exact Ht.
Qed.

(** The text given to [json.loads] is empty or starts with ['[']. *)
Lemma bracketed_shape reply :
  PyStr.has "[" reply = true ->
  bracketed reply = "" \/ exists t, bracketed reply = String "[" t.
Proof.
  intros Hhas.
  assert (Hstart : PyStr.find "[" reply <> -1).
  { intros H. apply PyStrFacts.find_absent in H. congruence. }
  destruct (PyStrFacts.find_range "[" reply) as [Hr | [Hr _]]; [| contradiction].
  unfold bracketed, PyStr.slice, PyStr.clamp.
  set (n := Z.of_nat (String.length reply)) in *.
  set (i := PyStr.find "[" reply) in *.
  set (j := PyStr.rfind "]" reply + 1).
  destruct (i <? 0) eqn:Ei; [apply Z.ltb_lt in Ei; lia |].
  replace (Z.min i n) with i by lia.
  destruct (Z.to_nat ((if j <? 0 then Z.max 0 (j + n) else Z.min j n) - i))
    as [|m].
  - left. apply PyStrFacts.substring_zero.
  - right. apply substring_at_find. exact Hstart.
Qed.

(** The reference parser makes a list of every text that starts with
    ['['], when it makes anything of it. *)
Lemma Json_scan_values_list fuel :
  forall s acc v r,
    Json.scan_values fuel s acc = Some (v, r) -> isinstance_list v = true.
Proof.
  induction fuel as [|fuel IH]; intros s acc v r H; [discriminate |].
  cbn [Json.scan_values] in H.
  destruct (Json.scan_once fuel s) as [[v0 r0]|]; [| discriminate].
  destruct (Json.skip_ws r0) as [|c r1]; [discriminate |].
  destruct (Ascii.eqb c "]").
  - injection H as <- _. reflexivity.
  - destruct (Ascii.eqb c ","); [| discriminate]. eapply IH; eassumption.
Qed.

Lemma Json_loads_bracket_list t v :
  Json.loads (String "[" t) = inl v -> isinstance_list v = true.
Proof.
  unfold Json.loads. cbn [Json.skip_ws Json.is_ws].
  change (Json.is_ws "[") with false. cbv iota.
  set (fuel := (2 * String.length (String "[" t) + 2)%nat).
  destruct fuel as [|fuel]; [discriminate |].
  cbn [Json.scan_once].
  change (Ascii.eqb "[" "034") with false.
  change (Ascii.eqb "[" "{") with false.
  change (Ascii.eqb "[" "[") with true. cbv iota.
  destruct (Json.skip_ws t) as [|c1 r1]; [discriminate |].
  destruct (Ascii.eqb c1 "]").
  - destruct (Json.skip_ws r1); intros H; [injection H as <- | discriminate];
      reflexivity.
  - destruct (Json.scan_values fuel (String c1 r1) []) as [[v0 r0]|] eqn:Hv;
      [| discriminate].
    destruct (Json.skip_ws r0); intros H; [injection H as <- | discriminate].
    eapply Json_scan_values_list; eassumption.
Qed.

Section DecompositionMore.

Variable World : Type.
Variable backend : World -> Call -> Outcome * World.
Variable json_loads : string -> PyVal + Exn.

Local Abbreviation mkSt := (mkSt World).
Local Abbreviation ai_prompt_decomposition :=
  (ai_prompt_decomposition World backend json_loads).

(** X6: the decomposer makes exactly one call, always to the model
    [gpt-4o-mini] with a budget of 500 tokens, whatever model the session
    has configured; the prompt of the call holds the query as it is,
    between double quotes; and the session is left as it was. *)
Theorem decomposition_one_call q s :
  exists l s' r,
    ai_prompt_decomposition q s = (inl l, s')
    /\ session World s' = session World s
    /\ completions (trace World s')
       = (completions (trace World s)
          ++ [(mkCall "gpt-4o-mini" (decomposition_prompt q) 500, r)])%list
    /\ PyStr.occurs_in (PyStr.dq ++ q ++ PyStr.dq) (decomposition_prompt q).
Proof.
  destruct (backend (world World s) (decomposition_call q)) as [r w'] eqn:Hb.
  assert (Hocc : PyStr.occurs_in (PyStr.dq ++ q ++ PyStr.dq)
                   (decomposition_prompt q)).
  { unfold decomposition_prompt. cbv zeta.
    do 17 apply PyStrFacts.occurs_in_app_r.
    match goal with
    | |- PyStr.occurs_in _ (_ ++ _ ++ _ ++ ?rest) => exists "", rest
    end.
    cbn [append]. now rewrite !PyStrFacts.append_assoc. }
  rewrite (ai_prompt_decomposition_run World backend json_loads q s r w' Hb).
  unfold reported, called, decomposition_call.
  destruct r as [reply | e];
    [destruct (PyStr.has "[" reply);
     [destruct (json_loads (bracketed reply)) as [v | e] |] |];
    eexists _, _, _; (split; [reflexivity |]); cbn [session trace];
    rewrite ?completions_app; cbn [completions]; rewrite ?app_nil_r;
    repeat split; exact Hocc.
Qed.

(** X7: the decomposer gives at most one message to [st.error], and whenever
    it gives one the result is the singleton of the query: no error is
    shown next to a decomposition that is used. *)
Theorem decomposition_reports_only_with_fallback q s :
  exists l s',
    ai_prompt_decomposition q s = (inl l, s')
    /\ (diagnostics (trace World s') = diagnostics (trace World s)
        \/ exists e,
             diagnostics (trace World s')
             = (diagnostics (trace World s)
                ++ [("Error in prompt decomposition: " ++ str e)%string])%list
             /\ l = [PyStr q]).
Proof.
  destruct (backend (world World s) (decomposition_call q)) as [r w'] eqn:Hb.
  rewrite (ai_prompt_decomposition_run World backend json_loads q s r w' Hb).
  unfold reported, called.
  destruct r as [reply | e];
    [destruct (PyStr.has "[" reply);
     [destruct (json_loads (bracketed reply)) as [v | e] |] |];
    eexists _, _; (split; [reflexivity |]); cbn [trace];
    rewrite !diagnostics_app; cbn [diagnostics]; rewrite ?app_nil_r;
    first [now left | right; exists e; split; reflexivity].
Qed.

(** X8: with a parser that makes a list of every text that starts with ['[']
    and raises on the empty text, as [json.loads] does, the test
    [isinstance(sub_prompts, list)] never fails: the result is the
    singleton of the query or exactly the parsed list. *)
Theorem decomposition_list_test_never_fails q s :
  (forall t v, json_loads (String "[" t) = inl v -> isinstance_list v = true) ->
  (forall v, json_loads "" <> inl v) ->
  exists l s',
    ai_prompt_decomposition q s = (inl l, s')
    /\ (l = [PyStr q]
        \/ exists reply,
             fst (backend (world World s) (decomposition_call q)) = inl reply
             /\ json_loads (bracketed reply) = inl (PyList l)).
Proof.
  intros Hlist Hempty.
  destruct (backend (world World s) (decomposition_call q)) as [r w'] eqn:Hb.
  rewrite (ai_prompt_decomposition_run World backend json_loads q s r w' Hb).
  destruct r as [reply | e]; [| eexists _, _; split; [reflexivity | now left]].
  destruct (PyStr.has "[" reply) eqn:Hhas;
    [| eexists _, _; split; [reflexivity | now left]].
  destruct (json_loads (bracketed reply)) as [v | e] eqn:Hv;
    [| eexists _, _; split; [reflexivity | now left]].
  assert (Hl : isinstance_list v = true).
  { destruct (bracketed_shape reply Hhas) as [He | (t & Ht)].
    - rewrite He in Hv. now apply Hempty in Hv.
    - rewrite Ht in Hv. eapply Hlist; eassumption. }
  rewrite Hl. destruct v; try discriminate.
  eexists _, _. split; [reflexivity |]. right. exists reply. auto.
Qed.

End DecompositionMore.

(** The text of [render], written out. *)
Lemma render_concat log :
  render log
  = String.concat ""
      (map (fun qa => PyStr.nl ++ "Q: " ++ fst qa ++ PyStr.nl
                      ++ "A: " ++ snd qa ++ PyStr.nl) log).
Proof.
  induction log as [|[q a] log IH]; [reflexivity |].
  cbn [render map fst snd]. rewrite IH. unfold qa_entry.
  destruct log as [|x log]; cbn [map String.concat].
  - rewrite PyStrFacts.append_nil_r. reflexivity.
  - reflexivity.
Qed.

(** ** The chat handler *)

Section HandlerFacts.

Variable World : Type.
Variable backend : World -> Call -> Outcome * World.
Variable json_loads : string -> PyVal + Exn.
Variable answer_untyped_parts : list PyVal -> M World unit.

Local Abbreviation mkSt := (mkSt World).
Local Abbreviation get_ai_response := (get_ai_response World backend).
Local Abbreviation ai_prompt_decomposition :=
  (ai_prompt_decomposition World backend json_loads).
Local Abbreviation direct_answer := (direct_answer World backend).
Local Abbreviation add_message := (add_message World).
Local Abbreviation answer_in_parts_loop := (answer_in_parts_loop World backend).
Local Abbreviation answer_in_parts := (answer_in_parts World backend).
Local Abbreviation chat_input :=
  (chat_input World backend json_loads answer_untyped_parts).
Local Abbreviation part_steps := (part_steps backend).

(** The state once the message of the user is appended. *)
Local Abbreviation after_user s prompt :=
  (mkSt (world World s) (trace World s)
     (with_messages (session World s)
        (messages (session World s) ++ [("user", prompt)]))).

Lemma add_message_run role content s :
  add_message role content s
  = (inl tt,
     mkSt (world World s) (trace World s)
       (with_messages (session World s)
          (messages (session World s) ++ [(role, content)]))).
Proof. reflexivity. Qed.

Lemma direct_answer_run prompt s r w' :
  backend (world World s) (mkCall (model (session World s)) prompt 500)
  = (r, w') ->
  direct_answer prompt s
  = (inl (response_of r),
     mkSt w'
       (trace World s
        ++ [EvCompletion (mkCall (model (session World s)) prompt 500) r])
       (with_messages (session World s)
          (messages (session World s) ++ [("assistant", response_of r)]))).
Proof.
  intros Hb. unfold direct_answer, bind, get_session.
  rewrite (get_ai_response_run World backend _ _ _ _ _ Hb). reflexivity.
Qed.

Lemma ai_prompt_decomposition_session q s res s' :
  ai_prompt_decomposition q s = (res, s') ->
  session World s' = session World s.
Proof.
  destruct (backend (world World s) (decomposition_call q)) as [r w'] eqn:Hb.
  rewrite (ai_prompt_decomposition_run World backend json_loads q s r w' Hb).
  destruct r as [reply | e];
    [destruct (PyStr.has "[" reply);
     [destruct (json_loads (bracketed reply)) |] |];
    intros H; injection H as _ <-; reflexivity.
Qed.

Lemma truthy_nonempty s : s <> "" -> PyStr.truthy s = true.
Proof. destruct s; [congruence | reflexivity]. Qed.

Lemma strings_of_map parts : strings_of (map PyStr parts) = Some parts.
Proof.
  induction parts as [|p parts IH]; [reflexivity |].
  cbn [map strings_of]. now rewrite IH.
Qed.

Lemma answer_in_parts_loop_cons i p parts context :
  answer_in_parts_loop i (p :: parts) context
  = bind World
      (get_ai_response (part_prompt context p) get_ai_response_model)
      (fun response =>
         bind World (add_message "assistant" (part_content i p response))
           (fun _ =>
              answer_in_parts_loop (S i) parts
                (context ++ qa_entry p response))).
Proof. reflexivity. Qed.

(** The loop over the parts follows [part_steps] and appends one message
    per part. *)
Lemma answer_in_parts_loop_run parts :
  forall i context s,
  exists calls recs w' context',
    part_steps (world World s) context parts calls recs w' context' /\
    answer_in_parts_loop i parts context s
    = (inl context',
       mkSt w' (trace World s ++ map completion_event calls)
         (with_messages (session World s)
            (messages (session World s) ++ part_messages i recs))).
Proof.
  induction parts as [|p parts IH]; intros i ctx s.
  - exists [], [], (world World s), ctx. split; [constructor |].
    cbn [answer_in_parts_loop map part_messages]. unfold ret, with_messages.
    rewrite !app_nil_r. destruct s as [w t [ms e m]]. reflexivity.
  - destruct (backend (world World s)
                (mkCall "gpt-4o-mini" (part_prompt ctx p) 500))
      as [r w1] eqn:Hb.
    specialize (IH (S i) (ctx ++ qa_entry p (response_of r))
                  (mkSt w1
                     (trace World s ++
                        [EvCompletion
                           (mkCall "gpt-4o-mini" (part_prompt ctx p) 500) r])%list
                     (with_messages (session World s)
                        (messages (session World s)
                         ++ [("assistant", part_content i p (response_of r))])))).
    destruct IH as (calls & recs & w' & ctx' & Hsteps & Hrun).
    exists ((mkCall "gpt-4o-mini" (part_prompt ctx p) 500, r) :: calls),
           ((p, response_of r) :: recs), w', ctx'.
    split; [econstructor; eassumption |].
    rewrite answer_in_parts_loop_cons. unfold bind.
    rewrite (get_ai_response_run World backend (part_prompt ctx p)
               get_ai_response_model s r w1 Hb).
    cbv beta iota. rewrite add_message_run. cbv beta iota.
    unfold get_ai_response_model. cbn [world trace session].
    rewrite Hrun. cbn [world trace session with_messages messages
                         enable_prompt_splitting model map part_messages].
    now rewrite <- !app_assoc.
Qed.

Lemma part_steps_length w ctx ps calls recs w' ctx' :
  part_steps w ctx ps calls recs w' ctx' ->
  length calls = length ps /\ length recs = length ps.
Proof. induction 1; simpl; [auto | lia]. Qed.

Lemma part_steps_prompts w ctx ps calls recs w' ctx' :
  part_steps w ctx ps calls recs w' ctx' -> map fst recs = ps.
Proof. induction 1; simpl; [reflexivity | now f_equal]. Qed.

Lemma part_steps_model w ctx ps calls recs w' ctx' :
  part_steps w ctx ps calls recs w' ctx' ->
  Forall (fun cr => call_model (fst cr) = "gpt-4o-mini") calls.
Proof. induction 1; constructor; simpl; auto. Qed.

Lemma part_steps_nth w ctx ps calls recs w' ctx' :
  part_steps w ctx ps calls recs w' ctx' ->
  forall i p, nth_error ps i = Some p ->
  exists r,
    nth_error calls i
    = Some (mkCall "gpt-4o-mini"
              (part_prompt (ctx ++ render (firstn i recs)) p) 500, r)
    /\ nth_error recs i = Some (p, response_of r).
Proof.
  induction 1 as [|w ctx p0 ps r w1 calls recs w' ctx' Hb Hsteps IH];
    intros i p Hi.
  - destruct i; discriminate.
  - destruct i as [|i]; cbn [nth_error firstn render] in *.
    + injection Hi as <-. exists r.
      now rewrite PyStrFacts.append_nil_r.
    + destruct (IH i p Hi) as (r' & Hc & Hr). exists r'.
      now rewrite <- PyStrFacts.append_assoc.
Qed.

Lemma part_messages_nth recs :
  forall i k p a,
    nth_error recs k = Some (p, a) ->
    nth_error (part_messages i recs) k
    = Some ("assistant", part_content (i + k) p a).
Proof.
  induction recs as [|[q b] recs IH]; intros i [|k] p a H;
    try discriminate; cbn [nth_error part_messages] in *.
  - injection H as -> ->. now rewrite Nat.add_0_r.
  - rewrite (IH (S i) k p a H). do 3 f_equal. lia.
Qed.

(** X9: with splitting off, a turn on a prompt appends the message of the
    user, makes one call with the configured model and the prompt as it
    is, and appends the answer: two messages more, earlier ones kept. *)
Theorem chat_input_normal_mode prompt s :
  prompt <> "" ->
  enable_prompt_splitting (session World s) = false ->
  exists r w',
    backend (world World s) (mkCall (model (session World s)) prompt 500)
    = (r, w')
    /\ chat_input (Some prompt) s
       = (inl tt,
          mkSt w'
            (trace World s
             ++ [EvCompletion (mkCall (model (session World s)) prompt 500) r])
            (with_messages (session World s)
               (messages (session World s)
                ++ [("user", prompt); ("assistant", response_of r)]))).
Proof.
  intros Hp Hoff.
  destruct (backend (world World s) (mkCall (model (session World s)) prompt 500))
    as [r w'] eqn:Hb.
  exists r, w'. split; [reflexivity |].
  unfold chat_input. rewrite (truthy_nonempty _ Hp). unfold bind at 1.
  rewrite add_message_run. cbv beta iota. unfold bind at 1, get_session at 1.
  cbn [session with_messages enable_prompt_splitting]. rewrite Hoff.
  unfold bind.
  rewrite (direct_answer_run prompt (after_user s prompt) r w' Hb).
  unfold ret, with_messages. cbn [session trace messages
    enable_prompt_splitting model]. now rewrite <- app_assoc.
Qed.

(** X10: with splitting on, a decomposition of fewer than two elements is set
    aside: the turn answers the prompt of the user itself, with the
    configured model, even when the decomposition held one sub-query. *)
Theorem chat_input_short_decomposition prompt s l s1 :
  prompt <> "" ->
  enable_prompt_splitting (session World s) = true ->
  ai_prompt_decomposition prompt (after_user s prompt) = (inl l, s1) ->
  (length l <= 1)%nat ->
  exists r w',
    backend (world World s1) (mkCall (model (session World s)) prompt 500)
    = (r, w')
    /\ chat_input (Some prompt) s
       = (inl tt,
          mkSt w'
            (trace World s1
             ++ [EvCompletion (mkCall (model (session World s)) prompt 500) r])
            (with_messages (session World s)
               (messages (session World s)
                ++ [("user", prompt); ("assistant", response_of r)]))).
Proof.
  intros Hp Hon Hdec Hlen.
  pose proof (ai_prompt_decomposition_session _ _ _ _ Hdec) as Hss.
  cbn [session] in Hss.
  destruct (backend (world World s1) (mkCall (model (session World s)) prompt 500))
    as [r w'] eqn:Hb.
  exists r, w'. split; [reflexivity |].
  unfold chat_input. rewrite (truthy_nonempty _ Hp). unfold bind at 1.
  rewrite add_message_run. cbv beta iota. unfold bind at 1, get_session at 1.
  cbn [session with_messages enable_prompt_splitting]. rewrite Hon.
  unfold bind at 1. rewrite Hdec.
  assert (Hlt : (1 <? length l)%nat = false) by (apply Nat.ltb_ge; exact Hlen).
  rewrite Hlt. unfold bind.
  assert (Hb' : backend (world World s1)
                  (mkCall (model (session World s1)) prompt 500) = (r, w'))
    by (rewrite Hss; exact Hb).
  rewrite (direct_answer_run prompt s1 r w' Hb'). rewrite Hss.
  unfold ret, with_messages. cbn [session trace messages
    enable_prompt_splitting model]. now rewrite <- app_assoc.
Qed.

(** X11: with splitting on and a decomposition into two or more texts, the turn
    answers the parts in order, one call each, all to [gpt-4o-mini]; part
    [i] is asked with the context of the parts before it; and after the
    message of the user it appends one message per part, numbered from 1,
    that holds the sub-query and its response; the text of the prompt and
    of the message is written out. *)
Theorem chat_input_parts prompt s parts s1 :
  prompt <> "" ->
  enable_prompt_splitting (session World s) = true ->
  ai_prompt_decomposition prompt (after_user s prompt)
  = (inl (map PyStr parts), s1) ->
  (1 < length parts)%nat ->
  exists calls recs s',
    chat_input (Some prompt) s = (inl tt, s')
    /\ trace World s' = (trace World s1 ++ map completion_event calls)%list
    /\ session World s'
       = with_messages (session World s)
           (messages (session World s)
            ++ ("user", prompt) :: part_messages 1 recs)
    /\ length calls = length parts
    /\ map fst recs = parts
    /\ Forall (fun cr => call_model (fst cr) = "gpt-4o-mini") calls
    /\ forall i p, nth_error parts i = Some p ->
         exists r,
           nth_error calls i
           = Some (mkCall "gpt-4o-mini"
                     (part_prompt (render (firstn i recs)) p) 500, r)
           /\ nth_error recs i = Some (p, response_of r)
           /\ nth_error (part_messages 1 recs) i
              = Some ("assistant", part_content (S i) p (response_of r))
           /\ part_content (S i) p (response_of r)
              = "**Part " ++ str_nat (S i) ++ "**: " ++ p
                ++ PyStr.nl ++ PyStr.nl ++ response_of r
           /\ part_prompt (render (firstn i recs)) p
              = match i with
                | O => p
                | S _ =>
                    PyStr.nl ++ PyStr.spaces 20
                    ++ "Given this context from previous responses: "
                    ++ PyStr.nl ++ PyStr.spaces 20
                    ++ String.concat ""
                         (map (fun qa => PyStr.nl ++ "Q: " ++ fst qa
                                         ++ PyStr.nl ++ "A: " ++ snd qa
                                         ++ PyStr.nl) (firstn i recs))
                    ++ PyStr.nl ++ PyStr.spaces 20
                    ++ PyStr.nl ++ PyStr.spaces 20
                    ++ "Please address this follow-up question while considering the above context:"
                    ++ PyStr.nl ++ PyStr.spaces 20 ++ p
                    ++ PyStr.nl ++ PyStr.spaces 20
                end.
Proof.
  intros Hp Hon Hdec Hlen.
  pose proof (ai_prompt_decomposition_session _ _ _ _ Hdec) as Hss.
  cbn [session] in Hss.
  destruct (answer_in_parts_loop_run parts 1 "" s1)
    as (calls & recs & w' & ctx' & Hsteps & Hrun).
  exists calls, recs,
    (mkSt w' (trace World s1 ++ map completion_event calls)
       (with_messages (session World s1)
          (messages (session World s1) ++ part_messages 1 recs))).
  split.
  - unfold chat_input. rewrite (truthy_nonempty _ Hp). unfold bind at 1.
    rewrite add_message_run. cbv beta iota. unfold bind at 1, get_session at 1.
    cbn [session with_messages enable_prompt_splitting]. rewrite Hon.
    unfold bind at 1. rewrite Hdec.
    assert (Hlt : (1 <? length (map PyStr parts))%nat = true)
      by (apply Nat.ltb_lt; now rewrite length_map).
    rewrite Hlt, strings_of_map. unfold answer_in_parts, bind.
    fold answer_in_parts_loop. rewrite Hrun. reflexivity.
  - cbn [trace session]. split; [reflexivity |]. split.
    { rewrite Hss. unfold with_messages.
      cbn [messages enable_prompt_splitting model].
      now rewrite <- app_assoc. }
    split; [eapply part_steps_length; eassumption |].
    split; [eapply part_steps_prompts; eassumption |].
    split; [eapply part_steps_model; eassumption |].
    intros i p Hi.
    destruct (part_steps_nth _ _ _ _ _ _ _ Hsteps i p Hi) as (r & Hc & Hr).
    exists r. split; [exact Hc |]. split; [exact Hr |].
    split; [apply (part_messages_nth recs 1 i p (response_of r) Hr) |].
    split; [reflexivity |].
    destruct i as [|i]; [reflexivity |].
    unfold part_prompt.
    rewrite truthy_render_firstn by (destruct recs; [discriminate | discriminate]).
    unfold part_template. cbv zeta. rewrite render_concat. reflexivity.
Qed.

End HandlerFacts.

(** X12: from its second step on, the handler does not send the prompt that
    [process_prompt_chain] would send for the same context and sub-query:
    its template is indented by 20 spaces and not by 12. On an empty
    context both send the sub-query as it is. *)
Theorem handler_prompt_differs context sub_prompt :
  context <> "" ->
  part_prompt context sub_prompt <> context_prompt context sub_prompt
  /\ part_prompt "" sub_prompt = context_prompt "" sub_prompt.
Proof.
  intros Hc. split; [| reflexivity].
  unfold part_prompt, context_prompt.
  destruct context as [|a context]; [congruence |]. cbn [PyStr.truthy].
  unfold part_template, context_template.
  cbn [PyStr.nl PyStr.spaces append]. discriminate.
Qed.

(** ** More runs on concrete inputs *)

Module MoreRuns.
Import Mock.

Local Abbreviation chain := (process_prompt_chain (list Outcome) scripted).
Local Abbreviation decompose :=
  (ai_prompt_decomposition (list Outcome) scripted Json.loads).
Local Abbreviation turn :=
  (chat_input (list Outcome) scripted Json.loads
     (fun _ => ret (list Outcome) tt)).

Lemma chain_prompt_size_witness :
  nth_error ["capital of France?"; "its population?"] 1
  = Some "its population?"
  /\ exists recs s' c r,
       chain ["capital of France?"; "its population?"]
         (mkSt _ [inl "Paris"; inl "2 million"] [] session0)
       = (inl recs, s')
       /\ nth_error (completions (trace _ s')) 1 = Some (c, r)
       /\ String.length (call_prompt c)
          = (String.length "its population?" + entries_size (firstn 1 recs)
             + 197)%nat
       /\ length (firstn 1 recs) = 1%nat.
Proof.
  split; [reflexivity |].
  apply (chain_prompt_size (list Outcome) scripted
           [inl "Paris"; inl "2 million"] session0
           ["capital of France?"; "its population?"] 0 "its population?").
  reflexivity.
Defined.

Lemma decomposition_list_test_never_fails_witness :
  (forall t v, Json.loads (String "[" t) = inl v -> isinstance_list v = true)
  /\ (forall v, Json.loads "" <> inl v)
  /\ exists l s',
       decompose "Explain photosynthesis"
         (start [inl ("Sure! [" ++ photosynthesis_items ++ "]")])
       = (inl l, s')
       /\ (l = [PyStr "Explain photosynthesis"]
           \/ exists reply,
                fst (scripted [inl ("Sure! [" ++ photosynthesis_items ++ "]")]
                       (decomposition_call "Explain photosynthesis"))
                = inl reply
                /\ Json.loads (bracketed reply) = inl (PyList l)).
Proof.
  split; [exact Json_loads_bracket_list |].
  split; [intros v H; discriminate H |].
  apply (decomposition_list_test_never_fails (list Outcome) scripted Json.loads
           "Explain photosynthesis"
           (start [inl ("Sure! [" ++ photosynthesis_items ++ "]")])
           Json_loads_bracket_list).
  intros v H; discriminate H.
Defined.

Lemma chat_input_normal_mode_witness :
  "What is Rocq?" <> ""
  /\ exists r w',
       scripted [inl "A proof assistant."] (mkCall "gpt-4o" "What is Rocq?" 500)
       = (r, w')
       /\ turn (Some "What is Rocq?")
            (mkSt _ [inl "A proof assistant."] []
               (mkSession [("user", "hi"); ("assistant", "hello")] false "gpt-4o"))
          = (inl tt,
             mkSt _ w'
               [EvCompletion (mkCall "gpt-4o" "What is Rocq?" 500) r]
               (mkSession
                  [("user", "hi"); ("assistant", "hello");
                   ("user", "What is Rocq?"); ("assistant", response_of r)]
                  false "gpt-4o")).
Proof.
  split; [discriminate |].
  apply (chat_input_normal_mode (list Outcome) scripted Json.loads
           (fun _ => ret (list Outcome) tt) "What is Rocq?"
           (mkSt _ [inl "A proof assistant."] []
              (mkSession [("user", "hi"); ("assistant", "hello")] false "gpt-4o")));
    [discriminate | reflexivity].
Defined.

(** The reply of a decomposition that holds one sub-query. *)
Local Abbreviation one_item := (PyStr.quoted "['Only the history of X']").

Lemma chat_input_short_decomposition_witness :
  decompose "Tell me about X"
    (mkSt _ [inl one_item; inl "X is ..."] []
       (mkSession [("user", "Tell me about X")] true "claude-3-haiku"))
  = (inl [PyStr "Only the history of X"],
     mkSt _ [inl "X is ..."]
       [EvCompletion (decomposition_call "Tell me about X") (inl one_item)]
       (mkSession [("user", "Tell me about X")] true "claude-3-haiku"))
  /\ exists r w',
       scripted [inl "X is ..."] (mkCall "claude-3-haiku" "Tell me about X" 500)
       = (r, w')
       /\ turn (Some "Tell me about X") (start [inl one_item; inl "X is ..."])
          = (inl tt,
             mkSt _ w'
               [EvCompletion (decomposition_call "Tell me about X")
                  (inl one_item);
                EvCompletion (mkCall "claude-3-haiku" "Tell me about X" 500) r]
               (mkSession
                  [("user", "Tell me about X"); ("assistant", response_of r)]
                  true "claude-3-haiku")).
Proof.
  split; [reflexivity |].
  apply (chat_input_short_decomposition (list Outcome) scripted Json.loads
           (fun _ => ret (list Outcome) tt) "Tell me about X"
           (start [inl one_item; inl "X is ..."])
           [PyStr "Only the history of X"]
           (mkSt _ [inl "X is ..."]
              [EvCompletion (decomposition_call "Tell me about X")
                 (inl one_item)]
              (mkSession [("user", "Tell me about X")] true "claude-3-haiku")));
    [discriminate | reflexivity | reflexivity | cbn; lia].
Defined.

(** The reply of a decomposition into two parts. *)
Local Abbreviation two_items := (PyStr.quoted "['What is X?', 'Why X?']").

Lemma chat_input_parts_witness :
  exists calls recs s',
    turn (Some "Explain X")
      (start [inl two_items; inl "X is ..."; inl "Because."])
    = (inl tt, s')
    /\ trace _ s'
       = ([EvCompletion (decomposition_call "Explain X") (inl two_items)]
          ++ map completion_event calls)%list
    /\ session _ s'
       = with_messages session0
           ([] ++ ("user", "Explain X") :: part_messages 1 recs)
    /\ length calls = 2%nat
    /\ map fst recs = ["What is X?"; "Why X?"]
    /\ Forall (fun cr => call_model (fst cr) = "gpt-4o-mini") calls
    /\ forall i p, nth_error ["What is X?"; "Why X?"] i = Some p ->
         exists r,
           nth_error calls i
           = Some (mkCall "gpt-4o-mini"
                     (part_prompt (render (firstn i recs)) p) 500, r)
           /\ nth_error recs i = Some (p, response_of r)
           /\ nth_error (part_messages 1 recs) i
              = Some ("assistant", part_content (S i) p (response_of r))
           /\ part_content (S i) p (response_of r)
              = "**Part " ++ str_nat (S i) ++ "**: " ++ p
                ++ PyStr.nl ++ PyStr.nl ++ response_of r
           /\ part_prompt (render (firstn i recs)) p
              = match i with
                | O => p
                | S _ =>
                    PyStr.nl ++ PyStr.spaces 20
                    ++ "Given this context from previous responses: "
                    ++ PyStr.nl ++ PyStr.spaces 20
                    ++ String.concat ""
                         (map (fun qa => PyStr.nl ++ "Q: " ++ fst qa
                                         ++ PyStr.nl ++ "A: " ++ snd qa
                                         ++ PyStr.nl) (firstn i recs))
                    ++ PyStr.nl ++ PyStr.spaces 20
                    ++ PyStr.nl ++ PyStr.spaces 20
                    ++ "Please address this follow-up question while considering the above context:"
                    ++ PyStr.nl ++ PyStr.spaces 20 ++ p
                    ++ PyStr.nl ++ PyStr.spaces 20
                end.
Proof.
  apply (chat_input_parts (list Outcome) scripted Json.loads
           (fun _ => ret (list Outcome) tt) "Explain X"
           (start [inl two_items; inl "X is ..."; inl "Because."])
           ["What is X?"; "Why X?"]
           (mkSt _ [inl "X is ..."; inl "Because."]
              [EvCompletion (decomposition_call "Explain X") (inl two_items)]
              (with_messages session0 [("user", "Explain X")])));
    [discriminate | reflexivity | reflexivity | cbn; lia].
Defined.

(** The messages of that turn. *)
Example chat_input_parts_messages :
  messages
    (session _
       (snd (turn (Some "Explain X")
               (start [inl two_items; inl "X is ..."; inl "Because."]))))
  = [("user", "Explain X");
     ("assistant", "**Part 1**: What is X?" ++ PyStr.nl ++ PyStr.nl ++ "X is ...");
     ("assistant", "**Part 2**: Why X?" ++ PyStr.nl ++ PyStr.nl ++ "Because.")].
Proof. reflexivity. Qed.

Lemma handler_prompt_differs_witness :
  qa_entry "a" "b" <> ""
  /\ part_prompt (qa_entry "a" "b") "c" <> context_prompt (qa_entry "a" "b") "c"
  /\ part_prompt "" "c" = context_prompt "" "c".
Proof.
  split; [discriminate |].
  apply (handler_prompt_differs (qa_entry "a" "b") "c"). discriminate.
Defined.

End MoreRuns.

(** ** The context keeps every earlier exchange *)

Section ContextAccumulates.

Variable World : Type.
Variable backend : World -> Call -> Outcome * World.

Lemma entry_in_render (recs : list (string * string)) :
  forall j i q a,
    nth_error recs j = Some (q, a) -> (j < i)%nat ->
    PyStr.occurs_in (qa_entry q a) (render (firstn i recs)).
Proof.
  induction recs as [|[q0 a0] recs IH]; intros j i q a Hj Hlt.
  - destruct j; discriminate.
  - destruct i as [|i]; [lia |]. cbn [firstn render].
    destruct j as [|j]; cbn [nth_error] in Hj.
    + injection Hj as -> ->.
      apply PyStrFacts.occurs_in_app_l, PyStrFacts.occurs_in_refl.
    + apply PyStrFacts.occurs_in_app_r. apply (IH j i q a Hj). lia.
Qed.

Lemma context_in_prompt ctx p :
  PyStr.occurs_in ctx (context_prompt ctx p).
Proof.
  unfold context_prompt. destruct ctx as [|c ctx]; cbn [PyStr.truthy].
  - exists "", p. reflexivity.
  - unfold context_template. cbv zeta.
    do 5 apply PyStrFacts.occurs_in_app_r.
    apply PyStrFacts.occurs_in_app_l, PyStrFacts.occurs_in_refl.
Qed.

(** X5: nothing is dropped from the context: the entry of every step, its
    sub-query and its response (an error text as well), is in the prompt
    of every later step of the run. *)
Theorem chain_context_accumulates w ss prompts j i p :
  (j < i)%nat ->
  nth_error prompts i = Some p ->
  exists recs s' q a c r,
    process_prompt_chain World backend prompts (mkSt World w [] ss)
    = (inl recs, s')
    /\ nth_error recs j = Some (q, a)
    /\ nth_error prompts j = Some q
    /\ nth_error (completions (trace World s')) i = Some (c, r)
    /\ PyStr.occurs_in (PyStr.nl ++ "Q: " ++ q ++ PyStr.nl ++ "A: " ++ a
                        ++ PyStr.nl) (call_prompt c).
Proof.
  intros Hlt Hi.
  destruct (process_prompt_chain_run World backend prompts w ss)
    as (calls & recs & w' & ctx' & Hsteps & Hrun).
  assert (Hil : (i < length prompts)%nat)
    by (apply nth_error_Some; congruence).
  destruct (nth_error prompts j) as [q|] eqn:Hj;
    [| apply nth_error_None in Hj; lia].
  destruct (chain_steps_nth _ _ _ _ _ _ _ _ _ Hsteps j q Hj) as (rj & _ & Hrj).
  destruct (chain_steps_nth _ _ _ _ _ _ _ _ _ Hsteps i p Hi) as (r & Hc & _).
  eexists recs, _, q, (response_of rj), _, r.
  split; [exact Hrun |]. split; [exact Hrj |]. split; [reflexivity |].
  cbn [trace]. rewrite completions_events. split; [exact Hc |].
  cbn [call_prompt append].
  eapply PyStrFacts.occurs_in_trans; [| apply context_in_prompt].
  apply (entry_in_render recs j i q (response_of rj) Hrj Hlt).
Qed.

End ContextAccumulates.

Lemma chain_context_accumulates_witness :
  (0 < 2)%nat
  /\ nth_error ["a"; "b"; "c"] 2 = Some "c"
  /\ exists recs s' q a c r,
       process_prompt_chain (list Outcome) Mock.scripted ["a"; "b"; "c"]
         (mkSt _ [inr (Exception "timeout"); inl "B"; inl "C"] []
            Mock.session0)
       = (inl recs, s')
       /\ nth_error recs 0 = Some (q, a)
       /\ nth_error ["a"; "b"; "c"] 0 = Some q
       /\ nth_error (completions (trace _ s')) 2 = Some (c, r)
       /\ PyStr.occurs_in (PyStr.nl ++ "Q: " ++ q ++ PyStr.nl ++ "A: " ++ a
                           ++ PyStr.nl) (call_prompt c).
Proof.
  split; [lia |]. split; [reflexivity |].
  apply (chain_context_accumulates (list Outcome) Mock.scripted
           [inr (Exception "timeout"); inl "B"; inl "C"] Mock.session0
           ["a"; "b"; "c"] 0 2 "c"); [lia | reflexivity].
Defined.

(** ** The context of a step, spelled out *)

Lemma firstn_length_app {A} (l1 l2 : list A) :
  firstn (length l1) (l1 ++ l2) = l1.
Proof.
  induction l1 as [|x l1 IH]; cbn [length firstn List.app].
  - now destruct l2.
  - now rewrite IH.
Qed.

Lemma nth_error_length_app {A} (l1 l2 : list A) x :
  nth_error (l1 ++ x :: l2) (length l1) = Some x.
Proof. induction l1 as [|y l1 IH]; [reflexivity | exact IH]. Qed.

Section ContextOfStep.

Variable World : Type.
Variable backend : World -> Call -> Outcome * World.

Local Abbreviation mkSt := (mkSt World).
Local Abbreviation process_prompt_chain_loop :=
  (process_prompt_chain_loop World backend).
Local Abbreviation process_prompt_chain := (process_prompt_chain World backend).

(** C3: in a run over N sub-queries, the text in the variable [context]
    when the prompt of step [i] is built is the one that the loop over the
    first [i] sub-queries alone leaves: it is the concatenation, in step
    order, of one entry per step [0 .. i-1], a newline, [Q: ] and the
    sub-query, a newline, [A: ] and the response, a newline; each of these
    steps has its entry in it, and it has no entry of step [i] or of a
    later step, which the loop that builds it never reaches. The context of
    step 0 is empty and its prompt is the sub-query itself; the prompt of a
    later step is the template around the context and the sub-query. *)
Theorem context_of_step w ss prompts i p :
  nth_error prompts i = Some p ->
  exists recs s' c r context,
    process_prompt_chain prompts (mkSt w [] ss) = (inl recs, s')
    /\ nth_error (completions (trace World s')) i = Some (c, r)
    /\ nth_error recs i = Some (p, response_of r)
    /\ fst (process_prompt_chain_loop (firstn i prompts) [] "" (mkSt w [] ss))
       = inl (firstn i recs, context)
    /\ length (firstn i recs) = i
    /\ map fst (firstn i recs) = firstn i prompts
    /\ context
       = String.concat ""
           (map (fun qa => PyStr.nl ++ "Q: " ++ fst qa ++ PyStr.nl
                           ++ "A: " ++ snd qa ++ PyStr.nl) (firstn i recs))
    /\ (forall j q a,
          (j < i)%nat -> nth_error recs j = Some (q, a) ->
          PyStr.occurs_in
            (PyStr.nl ++ "Q: " ++ q ++ PyStr.nl ++ "A: " ++ a ++ PyStr.nl)
            context)
    /\ (i = 0%nat -> context = "" /\ call_prompt c = p)
    /\ (i <> 0%nat ->
        call_prompt c
        = PyStr.nl ++ PyStr.spaces 12
          ++ "Given this context from previous responses: "
          ++ PyStr.nl ++ PyStr.spaces 12 ++ context
          ++ PyStr.nl ++ PyStr.spaces 12
          ++ PyStr.nl ++ PyStr.spaces 12
          ++ "Please address this follow-up question while considering the above context:"
          ++ PyStr.nl ++ PyStr.spaces 12 ++ p
          ++ PyStr.nl ++ PyStr.spaces 12).
Proof.
  intros Hi.
  destruct (nth_error_split prompts i Hi) as (ps1 & ps2 & -> & Hlen).
  subst i. rewrite firstn_length_app.
  destruct (process_prompt_chain_loop_run World backend ps1 [] "" (mkSt w [] ss))
    as (calls1 & recs1 & w1 & ctx1 & Hsteps1 & Hrun1).
  cbn [world trace session List.app] in Hsteps1, Hrun1.
  set (s1 := mkSt w1 (map completion_event calls1) ss) in *.
  destruct (process_prompt_chain_loop_run World backend (p :: ps2) recs1 ctx1 s1)
    as (calls2 & recs2 & w2 & ctx2 & Hsteps2 & Hrun2).
  cbn [world trace session s1] in Hsteps2, Hrun2.
  inversion Hsteps2 as [|w0 ctx0 p0 ps0 r w3 calls' recs' w4 ctx4 Hb Hrest];
    subst.
  pose proof (chain_steps_length _ _ _ _ _ _ _ _ _ Hsteps1) as [Hlc Hlr].
  pose proof (chain_steps_prompts _ _ _ _ _ _ _ _ _ Hsteps1) as Hps.
  pose proof (chain_steps_context _ _ _ _ _ _ _ _ _ Hsteps1) as Hctx.
  cbn [append] in Hctx.
  exists (recs1 ++ (p, response_of r) :: recs')%list,
    (mkSt w2
       (map completion_event calls1
        ++ map completion_event
             ((mkCall "gpt-4o-mini" (context_prompt ctx1 p) 500, r) :: calls'))
       ss),
    (mkCall "gpt-4o-mini" (context_prompt ctx1 p) 500), r, ctx1.
  rewrite <- Hlr, firstn_length_app.
  split.
  { unfold process_prompt_chain, bind. fold process_prompt_chain_loop.
    rewrite (process_prompt_chain_loop_app World backend), Hrun1, Hrun2.
    reflexivity. }
  split.
  { cbn [trace]. rewrite completions_app, !completions_events.
    rewrite Hlr, <- Hlc. apply nth_error_length_app. }
  split; [apply nth_error_length_app |].
  split; [rewrite Hrun1; reflexivity |].
  split; [reflexivity |].
  split; [exact Hps |].
  split; [rewrite Hctx; apply render_concat |].
  split.
  { intros j q a Hj Hq. rewrite nth_error_app1 in Hq by exact Hj.
    rewrite Hctx. rewrite <- (firstn_all recs1).
    apply (entry_in_render recs1 j (length recs1) q a Hq Hj). }
  split.
  { intros H0. destruct recs1; [| discriminate].
    cbn [render] in Hctx. subst ctx1. split; reflexivity. }
  intros Hne. cbn [call_prompt]. unfold context_prompt.
  destruct recs1 as [|[q0 a0] recs1]; [contradiction |].
  cbn [render] in Hctx. rewrite Hctx at 1. reflexivity.
Qed.

End ContextOfStep.

Lemma context_of_step_witness :
  nth_error ["capital of France?"; "its population?"] 1
  = Some "its population?"
  /\ exists recs s' c r context,
       process_prompt_chain (list Outcome) Mock.scripted
         ["capital of France?"; "its population?"]
         (mkSt _ [inl "Paris"; inl "2 million"] [] Mock.session0)
       = (inl recs, s')
       /\ nth_error (completions (trace _ s')) 1 = Some (c, r)
       /\ nth_error recs 1 = Some ("its population?", response_of r)
       /\ fst (process_prompt_chain_loop (list Outcome) Mock.scripted
                 (firstn 1 ["capital of France?"; "its population?"]) [] ""
                 (mkSt _ [inl "Paris"; inl "2 million"] [] Mock.session0))
          = inl (firstn 1 recs, context)
       /\ length (firstn 1 recs) = 1%nat
       /\ map fst (firstn 1 recs)
          = firstn 1 ["capital of France?"; "its population?"]
       /\ context
          = String.concat ""
              (map (fun qa => PyStr.nl ++ "Q: " ++ fst qa ++ PyStr.nl
                              ++ "A: " ++ snd qa ++ PyStr.nl) (firstn 1 recs))
       /\ (forall j q a,
             (j < 1)%nat -> nth_error recs j = Some (q, a) ->
             PyStr.occurs_in
               (PyStr.nl ++ "Q: " ++ q ++ PyStr.nl ++ "A: " ++ a ++ PyStr.nl)
               context)
       /\ (1%nat = 0%nat -> context = "" /\ call_prompt c = "its population?")
       /\ (1%nat <> 0%nat ->
           call_prompt c
           = PyStr.nl ++ PyStr.spaces 12
             ++ "Given this context from previous responses: "
             ++ PyStr.nl ++ PyStr.spaces 12 ++ context
             ++ PyStr.nl ++ PyStr.spaces 12
             ++ PyStr.nl ++ PyStr.spaces 12
             ++ "Please address this follow-up question while considering the above context:"
             ++ PyStr.nl ++ PyStr.spaces 12 ++ "its population?"
             ++ PyStr.nl ++ PyStr.spaces 12).
Proof.
  split; [reflexivity |].
  apply (context_of_step (list Outcome) Mock.scripted
           [inl "Paris"; inl "2 million"] Mock.session0
           ["capital of France?"; "its population?"] 1 "its population?").
  reflexivity.
Defined.

(** ** What the decomposer returns *)

Section DecompositionResult.

Variable World : Type.
Variable backend : World -> Call -> Outcome * World.
Variable json_loads : string -> PyVal + Exn.

Local Abbreviation ai_prompt_decomposition :=
  (ai_prompt_decomposition World backend json_loads).

(** C1, as the code has it: for every query the decomposer never raises
    and returns a list. Whenever the bracketed text of the reply parses to
    a list, the result is exactly that list, so that it is empty when, and
    only when, that text parses to the empty list; in every other case the
    result is the singleton of the query. The bracketed text, which is
    empty or starts with ['['], never parses to a value that is not a
    list, for a parser that makes lists of the texts that start with ['[']
    and raises on the empty text, as [json.loads] does. *)
Theorem decomposition_returns_a_list q s :
  (forall t v, json_loads (String "[" t) = inl v -> isinstance_list v = true) ->
  (forall v, json_loads "" <> inl v) ->
  exists l s',
    ai_prompt_decomposition q s = (inl l, s')
    /\ (forall reply l',
          fst (backend (world World s) (decomposition_call q)) = inl reply ->
          PyStr.has "[" reply = true ->
          json_loads (bracketed reply) = inl (PyList l') ->
          l = l')
    /\ (l = [] <->
        exists reply,
          fst (backend (world World s) (decomposition_call q)) = inl reply
          /\ PyStr.has "[" reply = true
          /\ json_loads (bracketed reply) = inl (PyList []))
    /\ ((exists reply l',
           fst (backend (world World s) (decomposition_call q)) = inl reply
           /\ PyStr.has "[" reply = true
           /\ json_loads (bracketed reply) = inl (PyList l'))
        \/ l = [PyStr q])
    /\ (forall reply v,
          fst (backend (world World s) (decomposition_call q)) = inl reply ->
          PyStr.has "[" reply = true ->
          json_loads (bracketed reply) = inl v ->
          isinstance_list v = true).
Proof.
  intros Hlist Hempty.
  assert (Hnever : forall reply v,
             PyStr.has "[" reply = true ->
             json_loads (bracketed reply) = inl v ->
             isinstance_list v = true).
  { intros reply v Hhas Hv.
    destruct (bracketed_shape reply Hhas) as [He | (t & Ht)].
    - rewrite He in Hv. now apply Hempty in Hv.
    - rewrite Ht in Hv. eapply Hlist; eassumption. }
  destruct (backend (world World s) (decomposition_call q)) as [r w'] eqn:Hb.
  rewrite (ai_prompt_decomposition_run World backend json_loads q s r w' Hb).
  cbn [fst].
  destruct r as [reply | e].
  - destruct (PyStr.has "[" reply) eqn:Hhas.
    + destruct (json_loads (bracketed reply)) as [v | e] eqn:Hv.
      * pose proof (Hnever reply v Hhas Hv) as Hl. rewrite Hl.
        destruct v as [| | | | |l0|]; try discriminate. cbn [elements].
        eexists _, _. split; [reflexivity |].
        split.
        { intros reply' l' Hr _ Hv'. injection Hr as <-.
          rewrite Hv in Hv'. now injection Hv' as <-. }
        split.
        { split.
          - intros ->. exists reply. auto.
          - intros (reply' & Hr & _ & Hv'). injection Hr as <-.
            rewrite Hv in Hv'. now injection Hv' as ->. }
        split; [left; exists reply, l0; auto |].
        intros reply' v' Hr Hhas' Hv'. injection Hr as <-.
        eapply Hnever; eassumption.
      * eexists _, _. split; [reflexivity |].
        split.
        { intros reply' l' Hr _ Hv'. injection Hr as <-.
          rewrite Hv in Hv'. discriminate. }
        split.
        { split; [discriminate |].
          intros (reply' & Hr & _ & Hv'). injection Hr as <-.
          rewrite Hv in Hv'. discriminate. }
        split; [now right |].
        intros reply' v' Hr Hhas' Hv'. injection Hr as <-.
        eapply Hnever; eassumption.
    + eexists _, _. split; [reflexivity |].
      split.
      { intros reply' l' Hr Hhas' _. injection Hr as <-. congruence. }
      split.
      { split; [discriminate |].
        intros (reply' & Hr & Hhas' & _). injection Hr as <-. congruence. }
      split; [now right |].
      intros reply' v' Hr Hhas' _. injection Hr as <-. congruence.
  - eexists _, _. split; [reflexivity |].
    split; [intros reply' l' Hr; discriminate |].
    split.
    { split; [discriminate |]. intros (reply' & Hr & _). discriminate. }
    split; [now right |].
    intros reply' v' Hr. discriminate.
Qed.

End DecompositionResult.

Lemma decomposition_returns_a_list_witness :
  (forall t v, Json.loads (String "[" t) = inl v -> isinstance_list v = true)
  /\ (forall v, Json.loads "" <> inl v)
  /\ exists l s',
       ai_prompt_decomposition (list Outcome) Mock.scripted Json.loads
         "What is X?" (Mock.start [inl "Nothing to split: []"])
       = (inl l, s')
       /\ (forall reply l',
             fst (Mock.scripted [inl "Nothing to split: []"]
                    (decomposition_call "What is X?")) = inl reply ->
             PyStr.has "[" reply = true ->
             Json.loads (bracketed reply) = inl (PyList l') ->
             l = l')
       /\ (l = [] <->
           exists reply,
             fst (Mock.scripted [inl "Nothing to split: []"]
                    (decomposition_call "What is X?")) = inl reply
             /\ PyStr.has "[" reply = true
             /\ Json.loads (bracketed reply) = inl (PyList []))
       /\ ((exists reply l',
              fst (Mock.scripted [inl "Nothing to split: []"]
                     (decomposition_call "What is X?")) = inl reply
              /\ PyStr.has "[" reply = true
              /\ Json.loads (bracketed reply) = inl (PyList l'))
           \/ l = [PyStr "What is X?"])
       /\ (forall reply v,
             fst (Mock.scripted [inl "Nothing to split: []"]
                    (decomposition_call "What is X?")) = inl reply ->
             PyStr.has "[" reply = true ->
             Json.loads (bracketed reply) = inl v ->
             isinstance_list v = true).
Proof.
  split; [exact Json_loads_bracket_list |].
  split; [intros v H; discriminate H |].
  apply (decomposition_returns_a_list (list Outcome) Mock.scripted Json.loads
           "What is X?" (Mock.start [inl "Nothing to split: []"])
           Json_loads_bracket_list).
  intros v H; discriminate H.
Defined.
